(** * Maps Scraper Pro: the scroll-driven scraper and the licence store

    A shallow embedding of [Scrapper/app.py]: the field extractors
    ([extract_element], [extract_attribute]), the scroll loop of
    [scrape_google_maps] run against a scripted browser, and
    [LicenseManager].  Python exceptions are values of [outcome]; the
    browser is explicit state threaded through the driver calls. *)

From Stdlib Require Import ZArith String Ascii List Lia Bool.
From stdpp Require Import base option list strings gmap.

(** ** Exceptions *)

(** The exceptions the modelled calls can raise. *)
Inductive exn : Type :=
  | NoSuchElementException
  | StaleElementReferenceException
  | TimeoutException
  | WebDriverException
  | OverflowError
  | ValueError.

(** What a Python call does: it returns a value or raises. *)
Inductive outcome (A : Type) : Type :=
  | Ok (a : A)
  | Raise (e : exn).
Arguments Ok {A} a.
Arguments Raise {A} e.

Definition bind_outcome {A B} (c : outcome A) (k : A -> outcome B) : outcome B :=
  match c with
  | Ok a => k a
  | Raise e => Raise e
  end.

Notation "x <~ c ;; k" := (bind_outcome c (fun x => k))
  (at level 100, c at next level, k at level 200, right associativity).

(** [try: body except: handler] with a bare [except], which catches
    every exception. *)
Definition try_except {A} (body : outcome A) (handler : exn -> outcome A) : outcome A :=
  match body with
  | Ok a => Ok a
  | Raise e => handler e
  end.

Definition raises {A} (c : outcome A) : Prop := exists e, c = Raise e.

(** The value a lookup yields, [None] when it raised. *)
Definition caught {A} (c : outcome A) : option A :=
  match c with
  | Ok a => Some a
  | Raise _ => None
  end.

(** ** Content units *)

(** An element found under a card: its [.text], and [.get_attribute],
    which is [None] for an attribute the element does not carry. *)
Record WebElement : Type := {
  text : outcome string;
  get_attribute : string -> outcome (option string)
}.

(** A result card, seen through [find_element(By.CSS_SELECTOR, _)]. *)
Record card : Type := {
  find_element : string -> outcome WebElement
}.

(** One row of the result: the dict built at lines 177-185. *)
Record business : Type := {
  Name : string;
  Rating : option string;
  Reviews : option string;
  Category : option string;
  Address : option string;
  Website : option string;
  Phone : option string
}.

(** [parent.find_element(By.CSS_SELECTOR, selector).text] *)
Definition element_text (parent : card) (selector : string) : outcome string :=
  el <~ find_element parent selector ;; text el.

(** [parent.find_element(By.CSS_SELECTOR, selector).get_attribute(attribute)] *)
Definition element_attribute (parent : card) (selector attribute : string)
  : outcome (option string) :=
  el <~ find_element parent selector ;; get_attribute el attribute.

(** Lines 195-200. *)
Definition extract_element (parent : card) (selector : string) : outcome (option string) :=
  try_except (t <~ element_text parent selector ;; Ok (Some t)) (fun _ => Ok None).

(** Lines 202-207. *)
Definition extract_attribute (parent : card) (selector attribute : string)
  : outcome (option string) :=
  try_except (element_attribute parent selector attribute) (fun _ => Ok None).

(** Python truth of an [Optional[str]]: [None] and the empty string are
    false. *)
Definition truthy (s : option string) : bool :=
  match s with
  | None => false
  | Some EmptyString => false
  | Some (String _ _) => true
  end.

(** Lines 169-185, the body of the [for] loop up to the [append]:
    [None] stands for [continue]. *)
Definition card_entry (c : card) : outcome (option business) :=
  name <~ try_except (t <~ element_text c "div.fontHeadlineSmall" ;; Ok (Some t))
                     (fun _ => Ok None) ;;
  match name with
  | Some n =>
      if negb (truthy name) then Ok None
      else
        rating <~ extract_element c "span.MW4etd" ;;
        reviews <~ extract_element c "span.UY7F9" ;;
        category <~ extract_element c "div.W4Efsd:first-child > div:first-child" ;;
        address <~ extract_element c "div.W4Efsd:nth-child(2) > span:nth-child(2)" ;;
        website <~ extract_attribute c "a[data-item-id='website']" "href" ;;
        phone <~ extract_element c "a[data-item-id='phone']" ;;
        Ok (Some {| Name := n; Rating := rating; Reviews := reviews;
                    Category := category; Address := address;
                    Website := website; Phone := phone |})
  | None => Ok None
  end.

(** Lines 168-190: the [for] loop over the cards still to process. It
    appends to [businesses] and breaks once the cap is reached. *)
Fixpoint for_cards (max_results : Z) (cards : list card) (businesses : list business)
  : outcome (list business) :=
  match cards with
  | [] => Ok businesses
  | c :: rest =>
      entry <~ card_entry c ;;
      match entry with
      | None => for_cards max_results rest businesses
      | Some business_data =>
          let businesses := businesses ++ [business_data] in
          if (Z.of_nat (length businesses) >=? max_results)%Z
          then Ok businesses
          else for_cards max_results rest businesses
      end
  end.

(** ** The session driver *)

(** What the browser shows after a command: the outcome of the command
    that led there ([driver.get] for the first page, a scroll for the
    later ones), the page height the script reads, and the cards
    [find_elements] sees by the end of the wait. *)
Record page : Type := {
  arrival : outcome unit;
  scrollHeight : outcome Z;
  articles : outcome (list card)
}.

(** A scripted driver: whether Chrome starts, and the page shown after
    the navigation ([pages 0]) and after each further scroll. *)
Record fixture : Type := {
  launch : bool -> outcome unit;
  pages : nat -> page
}.

Inductive session_state : Type :=
  | NoSession
  | SessionOpen
  | SessionClosed.

(** The browser as the scrape leaves it. *)
Record browser : Type := {
  session : session_state;
  current_url : option string;
  scrolls : nat
}.

Definition no_browser : browser :=
  {| session := NoSession; current_url := None; scrolls := 0 |}.

(** Driver code: it reads and changes the browser, returns or raises,
    and [None] is a loop that has not finished within its fuel. *)
Definition M (A : Type) : Type := browser -> option (outcome A * browser).

Definition ret {A} (a : A) : M A := fun b => Some (Ok a, b).

Definition bind {A B} (c : M A) (k : A -> M B) : M B :=
  fun b =>
    match c b with
    | Some (Ok a, b') => k a b'
    | Some (Raise e, b') => Some (Raise e, b')
    | None => None
    end.

Definition lift {A} (c : outcome A) : M A := fun b => Some (c, b).

Notation "x <- c ;; k" := (bind c (fun x => k))
  (at level 100, c at next level, k at level 200, right associativity).

(** [webdriver.Chrome(service=..., options=options)] *)
Definition Chrome (fx : fixture) (headless : bool) : M unit :=
  fun b =>
    match launch fx headless with
    | Ok _ => Some (Ok tt, {| session := SessionOpen; current_url := current_url b;
                              scrolls := scrolls b |})
    | Raise e => Some (Raise e, b)
    end.

(** [driver.get(url)] *)
Definition driver_get (fx : fixture) (url : string) : M unit :=
  fun b => Some (arrival (pages fx 0),
                 {| session := session b; current_url := Some url; scrolls := 0 |}).

(** [driver.execute_script("return document.body.scrollHeight")] *)
Definition execute_script_scrollHeight (fx : fixture) : M Z :=
  fun b => Some (scrollHeight (pages fx (scrolls b)), b).

(** [driver.execute_script("window.scrollTo(0, document.body.scrollHeight);")]
    followed by [time.sleep(SCROLL_PAUSE_TIME)]. *)
Definition execute_script_scrollTo (fx : fixture) : M unit :=
  fun b => Some (arrival (pages fx (S (scrolls b))),
                 {| session := session b; current_url := current_url b;
                    scrolls := S (scrolls b) |}).

(** [WebDriverWait(driver, 10).until(EC.presence_of_all_elements_located(...))]:
    [until] returns the first value of the condition that is true, and
    an empty list is false, so with no card by the end of the wait it
    raises [TimeoutException]. It polls on through a
    [NoSuchElementException] of the condition, the one exception it
    ignores, and ends in [TimeoutException] there too; any other
    exception leaves it at once. [found] is what the condition gives by
    the end of the wait. *)
Definition WebDriverWait_until (found : outcome (list card)) : outcome (list card) :=
  match found with
  | Ok [] => Raise TimeoutException
  | Ok (c :: cards) => Ok (c :: cards)
  | Raise NoSuchElementException => Raise TimeoutException
  | Raise e => Raise e
  end.

Definition presence_of_all_elements_located (fx : fixture) : M (list card) :=
  fun b => Some (WebDriverWait_until (articles (pages fx (scrolls b))), b).

(** [driver.quit()] *)
Definition driver_quit : M unit :=
  fun b => Some (Ok tt, {| session := SessionClosed; current_url := current_url b;
                           scrolls := scrolls b |}).

(** ** The scroll loop *)

(** The local variables of [scrape_google_maps] the loop changes. *)
Record locals : Type := {
  businesses : list business;
  last_height : Z;
  scroll_attempts : Z
}.

(** Python's [str.replace(old, new)] for a pattern of one character. *)
Fixpoint replace (old : ascii) (new : string) (s : string) : string :=
  match s with
  | EmptyString => EmptyString
  | String c rest =>
      if Ascii.eqb c old then new +:+ replace old new rest
      else String c (replace old new rest)
  end.

(** Line 145. *)
Definition search_query (keyword location : string) : string :=
  replace " " "%20" (keyword +:+ " in " +:+ location).

(** The argument of [driver.get] at line 146. *)
Definition search_url (keyword location : string) : string :=
  "https://www.google.com/maps/search/" +:+ search_query keyword location +:+ "/".

(** The condition of the [while] at line 152. *)
Definition loop_condition (max_results : Z) (st : locals) : bool :=
  (Z.of_nat (length (businesses st)) <? max_results)%Z && (scroll_attempts st <? 5)%Z.

(** Lines 153-190: one pass of the [while] body. *)
Definition loop_body (fx : fixture) (max_results : Z) (st : locals) : M locals :=
  _ <- execute_script_scrollTo fx ;;
  new_height <- execute_script_scrollHeight fx ;;
  let scroll_attempts :=
    if (new_height =? last_height st)%Z then (scroll_attempts st + 1)%Z else 0%Z in
  let last_height := new_height in
  cards <- presence_of_all_elements_located fx ;;
  businesses <- lift (for_cards max_results
                        (drop (length (businesses st)) cards) (businesses st)) ;;
  ret {| businesses := businesses; last_height := last_height;
         scroll_attempts := scroll_attempts |}.

(** Lines 152-190. Python's [while] has no bound of its own: [fuel]
    bounds the passes, and [None] says the loop was still running. *)
Fixpoint while_loop (fuel : nat) (fx : fixture) (max_results : Z) (st : locals) : M locals :=
  if loop_condition max_results st then
    match fuel with
    | O => fun _ => None
    | S fuel' =>
        st' <- loop_body fx max_results st ;;
        while_loop fuel' fx max_results st'
    end
  else ret st.

(** Lines 131-193. *)
Definition scrape_google_maps (fx : fixture) (keyword location : string)
    (max_results : Z) (headless : bool) (fuel : nat) : M (list business) :=
  _ <- Chrome fx headless ;;
  _ <- driver_get fx (search_url keyword location) ;;
  last_height <- execute_script_scrollHeight fx ;;
  st <- while_loop fuel fx max_results
          {| businesses := []; last_height := last_height; scroll_attempts := 0 |} ;;
  _ <- driver_quit ;;
  ret (businesses st).

(** ** Fixtures *)

Module Fixtures.

Definition element (t : string) : WebElement :=
  {| text := Ok t; get_attribute := fun _ => Ok None |}.

Definition link (t href : string) : WebElement :=
  {| text := Ok t;
     get_attribute := fun a => Ok (if String.eqb a "href" then Some href else None) |}.

Fixpoint lookup_selector (selector : string) (fields : list (string * WebElement))
  : outcome WebElement :=
  match fields with
  | [] => Raise NoSuchElementException
  | (s, el) :: rest =>
      if String.eqb s selector then Ok el else lookup_selector selector rest
  end.

(** A card holding exactly the listed elements. *)
Definition card_of (fields : list (string * WebElement)) : card :=
  {| find_element := fun selector => lookup_selector selector fields |}.

(** A card with a name and nothing else. *)
Definition named (n : string) : card :=
  card_of [("div.fontHeadlineSmall", element n)].

(** A card without a headline: a loading placeholder. *)
Definition placeholder : card := card_of [].

Definition full_card : card :=
  card_of [("div.fontHeadlineSmall", element "Joe's Garage");
           ("span.MW4etd", element "4.7");
           ("span.UY7F9", element "(212)");
           ("div.W4Efsd:first-child > div:first-child", element "Mechanic");
           ("div.W4Efsd:nth-child(2) > span:nth-child(2)", element "12 Main St");
           ("a[data-item-id='website']", link "Website" "https://joes.example");
           ("a[data-item-id='phone']", element "555-0100")].

Definition only (n : string) : business :=
  {| Name := n; Rating := None; Reviews := None; Category := None;
     Address := None; Website := None; Phone := None |}.

Definition shown (height : Z) (cards : list card) : page :=
  {| arrival := Ok tt; scrollHeight := Ok height; articles := Ok cards |}.

(** The same page, whatever the number of scrolls. *)
Definition still (height : Z) (cards : list card) : fixture :=
  {| launch := fun _ => Ok tt; pages := fun _ => shown height cards |}.

(** The pages of [script] in turn, then [last] for ever. *)
Definition scripted (script : list page) (last : page) : fixture :=
  {| launch := fun _ => Ok tt; pages := fun n => nth n script last |}.

(** Chrome starts, the navigation fails. *)
Definition unreachable : fixture :=
  {| launch := fun _ => Ok tt;
     pages := fun _ => {| arrival := Raise WebDriverException;
                          scrollHeight := Ok 0%Z; articles := Ok [] |} |}.

Definition units (names : list string) : list card := map named names.

Definition twelve_names : list string :=
  ["u01"; "u02"; "u03"; "u04"; "u05"; "u06"; "u07"; "u08"; "u09"; "u10"; "u11"; "u12"].

(** Twelve units over three scrolls, five new ones, then four, then
    three, the height growing with each and flat afterwards. *)
Definition twelve_units : fixture :=
  scripted [shown 800 [];
            shown 1600 (units (take 5 twelve_names));
            shown 2400 (units (take 9 twelve_names))]
           (shown 3200 (units twelve_names)).

(** A placeholder above two businesses, and nothing more to load. *)
Definition placeholder_first : fixture :=
  still 1000 [placeholder; named "A"; named "B"].

End Fixtures.

(** ** Reading the extraction as a function *)

Definition NAME_SELECTOR : string := "div.fontHeadlineSmall".

(** The attribute a lookup yields, [None] when it raised or when the
    element has no such attribute. *)
Definition caught_attribute (c : outcome (option string)) : option string :=
  match c with
  | Ok v => v
  | Raise _ => None
  end.

(** [b] is what the card shows: its name is the headline's text, which
    is not empty, and every other field is the text found under its
    selector, or [None] when the lookup raised. *)
Definition extracted_from (c : card) (b : business) : Prop :=
  element_text c NAME_SELECTOR = Ok (Name b) /\
  Name b <> EmptyString /\
  Rating b = caught (element_text c "span.MW4etd") /\
  Reviews b = caught (element_text c "span.UY7F9") /\
  Category b = caught (element_text c "div.W4Efsd:first-child > div:first-child") /\
  Address b = caught (element_text c "div.W4Efsd:nth-child(2) > span:nth-child(2)") /\
  Website b = caught_attribute (element_attribute c "a[data-item-id='website']" "href") /\
  Phone b = caught (element_text c "a[data-item-id='phone']").

(** The record of a card, [None] for a card the loop skips. *)
Definition unit_record (c : card) : option business :=
  match caught (element_text c NAME_SELECTOR) with
  | Some (String a n) =>
      Some {| Name := String a n;
              Rating := caught (element_text c "span.MW4etd");
              Reviews := caught (element_text c "span.UY7F9");
              Category := caught (element_text c "div.W4Efsd:first-child > div:first-child");
              Address :=
                caught (element_text c "div.W4Efsd:nth-child(2) > span:nth-child(2)");
              Website :=
                caught_attribute (element_attribute c "a[data-item-id='website']" "href");
              Phone := caught (element_text c "a[data-item-id='phone']") |}
  | _ => None
  end.

(** The cards a page lists, none when the listing raised. *)
Definition cards_at (fx : fixture) (n : nat) : list card :=
  match articles (pages fx n) with
  | Ok cards => cards
  | Raise _ => []
  end.

(** What one pass adds: the records of the cards beyond the first
    [length bs], in their order, cut at the cap. *)
Definition appended (max_results : Z) (bs : list business) (cards : list card)
  : list business :=
  bs ++ take (Z.to_nat max_results - length bs)
             (omap unit_record (drop (length bs) cards)).

(** The records accumulated after [n] passes, each pass reading the page
    its scroll led to. *)
Fixpoint emitted (fx : fixture) (max_results : Z) (n : nat) : list business :=
  match n with
  | O => []
  | S m => appended max_results (emitted fx max_results m) (cards_at fx (S m))
  end.

(** One pass of the loop body as a function of the page it reads. *)
Definition pass (fx : fixture) (max_results : Z) (st : locals) (n : nat) : outcome locals :=
  _ <~ arrival (pages fx n) ;;
  new_height <~ scrollHeight (pages fx n) ;;
  cards <~ WebDriverWait_until (articles (pages fx n)) ;;
  bs <~ for_cards max_results (drop (length (businesses st)) cards) (businesses st) ;;
  Ok {| businesses := bs; last_height := new_height;
        scroll_attempts := if (new_height =? last_height st)%Z
                           then (scroll_attempts st + 1)%Z else 0%Z |}.

Definition scrolled (b : browser) : browser :=
  {| session := session b; current_url := current_url b; scrolls := S (scrolls b) |}.

(** No driver call raises, on any page: the command that leads to the
    page, the reading of its height, the wait for its cards. *)
Definition healthy (fx : fixture) : Prop :=
  forall n, arrival (pages fx n) = Ok tt /\
            (exists h, scrollHeight (pages fx n) = Ok h) /\
            (exists cards, WebDriverWait_until (articles (pages fx n)) = Ok cards).

(** The browser once Chrome has started and the search page is
    requested, the browser after [driver.quit()], and the locals at the
    loop's entry. *)
Definition opened (keyword location : string) : browser :=
  {| session := SessionOpen; current_url := Some (search_url keyword location);
     scrolls := 0 |}.

Definition closed (b : browser) : browser :=
  {| session := SessionClosed; current_url := current_url b; scrolls := scrolls b |}.

Definition initial (h : Z) : locals :=
  {| businesses := []; last_height := h; scroll_attempts := 0 |}.

(** The loop's own record of what it has accumulated: after [n] passes
    the list is [emitted n], and every pass started under the cap with
    fewer than five stagnant scrolls behind it. *)
Definition accumulated (fx : fixture) (max_results : Z) (st : locals) (n : nat) : Prop :=
  businesses st = emitted fx max_results n /\
  (forall i, i < n -> (Z.of_nat (length (emitted fx max_results i)) < max_results)%Z) /\
  (0 <= scroll_attempts st <= 5)%Z.

(** ** The run the pages determine *)

(** The height the script reads on page [n], 0 when the call raised. *)
Definition height_at (fx : fixture) (n : nat) : Z :=
  match scrollHeight (pages fx n) with
  | Ok h => h
  | Raise _ => 0%Z
  end.

(** The stagnation counter in the specification's words, as a function
    of the heights alone: after a scroll it is one more than before when
    the new height equals the last one, and zero when it differs. *)
Fixpoint stagnation (fx : fixture) (n : nat) : Z :=
  match n with
  | O => 0%Z
  | S m =>
      if (height_at fx (S m) =? height_at fx m)%Z then (stagnation fx m + 1)%Z else 0%Z
  end.

(** No driver call raises up to page [i]: Chrome starts, and for each
    page the command that leads to it returns, its height is read and,
    from the first scroll on, the wait finds a card. *)
Definition fault_free (fx : fixture) (headless : bool) (i : nat) : Prop :=
  launch fx headless = Ok tt /\
  forall n, n <= i ->
    arrival (pages fx n) = Ok tt /\
    (exists h, scrollHeight (pages fx n) = Ok h) /\
    (1 <= n -> exists cards, WebDriverWait_until (articles (pages fx n)) = Ok cards).

(** The locals after [n] passes without a fault, and the browser
    [n] scrolls later. *)
Definition locals_at (fx : fixture) (max_results : Z) (n : nat) : locals :=
  {| businesses := emitted fx max_results n;
     last_height := height_at fx n;
     scroll_attempts := stagnation fx n |}.

Definition after_scrolls (n : nat) (b : browser) : browser :=
  {| session := session b; current_url := current_url b; scrolls := scrolls b + n |}.

(** ** Percent-encoding *)

(** The percent-encoding the specification speaks of (RFC 3986, what
    [urllib.parse.quote(_, safe='')] computes): a letter, a digit or one
    of [-._~] stands for itself and any other byte is written [%XX], in
    upper-case hexadecimal. The scraper does not call it; it is what
    [search_query] is compared with. *)
Definition unreserved (c : ascii) : bool :=
  let n := nat_of_ascii c in
  ((65 <=? n) && (n <=? 90)) || ((97 <=? n) && (n <=? 122)) || ((48 <=? n) && (n <=? 57))
  || Ascii.eqb c "-" || Ascii.eqb c "." || Ascii.eqb c "_" || Ascii.eqb c "~".

Definition hex_digit (n : nat) : ascii :=
  if n <? 10 then ascii_of_nat (48 + n) else ascii_of_nat (55 + n).

Fixpoint percent_encoded (s : string) : string :=
  match s with
  | EmptyString => EmptyString
  | String c rest =>
      if unreserved c then String c (percent_encoded rest)
      else String "%" (String (hex_digit (nat_of_ascii c / 16))
             (String (hex_digit (nat_of_ascii c mod 16)) (percent_encoded rest)))
  end.

(** A text of unreserved characters and spaces only. *)
Definition plain_text (s : string) : bool :=
  forallb (fun c => unreserved c || Ascii.eqb c " ") (list_ascii_of_string s).

(** ** The licence store *)

Module License.

(** *** Dates *)

(** A naive [datetime] is the number of microseconds since
    0001-01-01T00:00:00, the least one; [datetime.max] is the last
    microsecond of 9999-12-31. *)
Definition MICROSECONDS_PER_DAY : Z := 86400000000.
Definition DAYS_TO_MAX : Z := 3652059.
Definition MAX_DELTA_DAYS : Z := 999999999.

(** The date of a [datetime], as days since 0001-01-01. *)
Definition date_of (t : Z) : Z := (t / MICROSECONDS_PER_DAY)%Z.

(** Midnight at the start of a date. *)
Definition midnight (day : Z) : Z := (day * MICROSECONDS_PER_DAY)%Z.

(** [timedelta(days=d)], which raises beyond a thousand million days. *)
Definition timedelta (days : Z) : outcome Z :=
  if (Z.abs days <=? MAX_DELTA_DAYS)%Z then Ok (days * MICROSECONDS_PER_DAY)%Z
  else Raise OverflowError.

(** [datetime + timedelta], which raises outside years 1 to 9999. *)
Definition datetime_add (t delta : Z) : outcome Z :=
  let r := (t + delta)%Z in
  if (0 <=? r)%Z && (r <? DAYS_TO_MAX * MICROSECONDS_PER_DAY)%Z then Ok r
  else Raise OverflowError.

(** *** The manager *)

(** [self.licenses] and the content of [LICENSE_FILE], [None] while
    the file does not exist. *)
Record LicenseManager : Type := {
  licenses : gmap string string;
  license_file : option (gmap string string)
}.

(** Lines 27-31 and 24-25. *)
Definition _load_licenses (file : option (gmap string string)) : gmap string string :=
  match file with
  | Some stored => stored
  | None => ∅
  end.

Definition __init__ (file : option (gmap string string)) : LicenseManager :=
  {| licenses := _load_licenses file; license_file := file |}.

(** Lines 33-35. *)
Definition _save_licenses (self : LicenseManager) : LicenseManager :=
  {| licenses := licenses self; license_file := Some (licenses self) |}.

Section Library.

(** The text of a date under ['%Y-%m-%d'] and its reading back,
    which raises [ValueError] on a text that is not a date; and
    [base64.urlsafe_b64encode(hashlib.sha256(_).digest())]. *)
Variable strftime : Z -> string.
Variable strptime : string -> outcome Z.
Variable sha256_b64 : string -> string.

(** Lines 37-44. [now] is [datetime.now()] and [nonce] is
    [os.urandom(16).hex()]. *)
Definition generate_key (now : Z) (nonce : string) (duration_days : Z)
    (self : LicenseManager) : outcome (string * string * LicenseManager) :=
  delta <~ timedelta duration_days ;;
  expires <~ datetime_add now delta ;;
  let expiration_date := strftime (date_of expires) in
  let raw_key := expiration_date +:+ "-" +:+ nonce in
  let encoded_key := sha256_b64 raw_key in
  let self := {| licenses := <[encoded_key := expiration_date]> (licenses self);
                 license_file := license_file self |} in
  Ok (encoded_key, expiration_date, _save_licenses self).

(** Lines 46-50. *)
Definition validate_key (now : Z) (key : string) (self : LicenseManager)
  : outcome (bool * option string) :=
  let expiry_date := licenses self !! key in
  match expiry_date with
  | Some text =>
      if truthy expiry_date then
        day <~ strptime text ;;
        Ok ((now <? midnight day)%Z, expiry_date)
      else Ok (false, None)
  | None => Ok (false, None)
  end.

End Library.

(** *** The calendar *)

(** The proleptic Gregorian calendar and the ISO text of a date, with a
    year of four digits and a month and a day of two. For the dates of
    years 1000 to 9999 this is what [strftime] writes under
    ['%Y-%m-%d']; before year 1000 the C library decides, and glibc
    writes the year without the leading zeros [iso_strftime] puts, so
    the properties that speak of the text of a date must keep to years
    1000 and later or to a clock of today. [iso_strptime] reads the
    text of ten characters back and raises [ValueError] on any other;
    Python's [strptime] also accepts a month or a day of one digit,
    texts [strftime] never writes. *)

(** The calendar repeats every 146097 days, 400 years. Within such a
    cycle, begun on a first of March, the year of the cycle, the month
    and the day of the [doe]-th day. *)
Definition civil_of_doe (doe : Z) : Z * Z * Z :=
  let yoe := ((doe - doe / 1460 + doe / 36524 - doe / 146096) / 365)%Z in
  let doy := (doe - (365 * yoe + yoe / 4 - yoe / 100))%Z in
  let mp := ((5 * doy + 2) / 153)%Z in
  let d := (doy - (153 * mp + 2) / 5 + 1)%Z in
  let m := if (mp <? 10)%Z then (mp + 3)%Z else (mp - 9)%Z in
  (yoe, m, d).

Definition doe_of_civil (yoe m d : Z) : Z :=
  let mp := if (2 <? m)%Z then (m - 3)%Z else (m + 9)%Z in
  let doy := ((153 * mp + 2) / 5 + d - 1)%Z in
  (yoe * 365 + yoe / 4 - yoe / 100 + doy)%Z.

(** Year, month and day of a date; 0000-03-01 is 306 days before
    0001-01-01, and January and February belong to the year after the
    one their cycle year began in. *)
Definition civil_of_day (day : Z) : Z * Z * Z :=
  let z := (day + 306)%Z in
  let '(yoe, m, d) := civil_of_doe (z mod 146097) in
  let y := (yoe + z / 146097 * 400)%Z in
  (if (m <=? 2)%Z then (y + 1)%Z else y, m, d).

Definition day_of_civil (y m d : Z) : Z :=
  let y := if (m <=? 2)%Z then (y - 1)%Z else y in
  (y / 400 * 146097 + doe_of_civil (y mod 400) m d - 306)%Z.

(** What is checked of each day of a cycle: the two conversions are
    inverse, month and day are in range, and the year of the cycle is at
    least 1 from 0001-01-01 on and at most 399 up to the thirty-first of
    December of its 399th year. *)
Definition cycle_day_ok (doe : Z) : bool :=
  let '(yoe, m, d) := civil_of_doe doe in
  let y := if (m <=? 2)%Z then (yoe + 1)%Z else yoe in
  (0 <=? yoe)%Z && (yoe <=? 399)%Z && (doe_of_civil yoe m d =? doe)%Z
  && (1 <=? m)%Z && (m <=? 12)%Z && (1 <=? d)%Z && (d <=? 31)%Z
  && implb (306 <=? doe)%Z (1 <=? y)%Z && implb (doe <? 146037)%Z (y <=? 399)%Z.

Fixpoint all_from (n : nat) (doe : Z) : bool :=
  match n with
  | O => true
  | S n' => cycle_day_ok doe && all_from n' (doe + 1)
  end.

Definition digit (n : Z) : ascii := ascii_of_nat (48 + Z.to_nat (n mod 10)).

Definition digit_value (c : ascii) : option Z :=
  let n := nat_of_ascii c in
  if (48 <=? n) && (n <=? 57) then Some (Z.of_nat (n - 48)) else None.

Definition iso_strftime (day : Z) : string :=
  let '(y, m, d) := civil_of_day day in
  String (digit (y / 1000)) (String (digit (y / 100)) (String (digit (y / 10))
    (String (digit y) (String "-" (String (digit (m / 10)) (String (digit m)
      (String "-" (String (digit (d / 10)) (String (digit d) EmptyString))))))))).

Definition number (digits : list ascii) : option Z :=
  foldl (fun acc c => n ← acc; v ← digit_value c; Some (10 * n + v)%Z) (Some 0%Z) digits.

Definition iso_strptime (s : string) : outcome Z :=
  match s with
  | String y1 (String y2 (String y3 (String y4 (String "-" (String m1 (String m2
      (String "-" (String d1 (String d2 EmptyString))))))))) =>
      match number [y1; y2; y3; y4], number [m1; m2], number [d1; d2] with
      | Some y, Some m, Some d =>
          let day := day_of_civil y m d in
          if (1 <=? y)%Z && (1 <=? m)%Z && (m <=? 12)%Z && (1 <=? d)%Z
             && bool_decide (civil_of_day day = (y, m, d))
          then Ok day else Raise ValueError
      | _, _, _ => Raise ValueError
      end
  | _ => Raise ValueError
  end.

(** 2026-11-04T16:00:00. *)
Definition a_wednesday : Z := (739923 * MICROSECONDS_PER_DAY + 57600000000)%Z.

(** Stands for the digest in the examples; nothing proved here depends
    on what the digest is. *)
Definition plain (raw_key : string) : string := raw_key.

End License.

(** ** The page *)

Module Page.

(** What a run of the script shows: the messages, the preview and the
    download button. Titles, columns, the expander and the spinner are
    layout and are left out; a message is named by its call and carries
    what its text is formatted from. *)
Inductive widget : Type :=
  | sidebar_new_license (key expiry : string)
  | error_invalid_license
  | success_license_valid (expiry_date : option string)
  | warning_fill_both_fields
  | success_found (n : nat)
  | dataframe (rows : list business)
  | download_button (file_name : string) (rows : list business)
  | warning_no_results
  | error_scraping_failed (e : exn).

(** What the visitor entered: the text inputs, the slider, the
    checkboxes and the buttons of lines 60-64 and 74-100. *)
Record form : Type := {
  admin_portal : bool;
  license_duration : Z;
  generate_new_license : bool;
  license_key : string;
  keyword : string;
  location : string;
  max_results_slider : Z;
  headless_mode : bool;
  start_search : bool
}.

(** [st.sidebar.number_input(..., min_value=1, max_value=365, value=30)]
    and [st.slider("Maximum Results", 10, 500, 100, 10)] only give
    values of their range, the slider in steps of ten. *)
Definition widget_ranges (f : form) : Prop :=
  (1 <= license_duration f <= 365)%Z /\
  (10 <= max_results_slider f <= 500)%Z /\
  (max_results_slider f mod 10 = 0)%Z.

(** [try: body except Exception as e: handler] around driver code. *)
Definition try_except_Exception {A} (body : M A) (handler : exn -> M A) : M A :=
  fun b =>
    match body b with
    | Some (Raise e, b') => handler e b'
    | r => r
    end.

(** [f"businesses_{keyword}_{location}.csv"] *)
Definition file_name (keyword location : string) : string :=
  "businesses_" +:+ keyword +:+ "_" +:+ location +:+ ".csv".

Section Library.

Variable strftime : Z -> string.
Variable strptime : string -> outcome Z.
Variable sha256_b64 : string -> string.

(** Lines 59-67, the admin section of the script. *)
Definition admin_section (now : Z) (nonce : string) (f : form)
    (license_manager : License.LicenseManager)
  : outcome (list widget * License.LicenseManager) :=
  if admin_portal f then
    let duration := license_duration f in
    if generate_new_license f then
      r <~ License.generate_key strftime sha256_b64 now nonce duration license_manager ;;
      let '(key, expiry, license_manager) := r in
      Ok ([sidebar_new_license key expiry], license_manager)
    else Ok ([], license_manager)
  else Ok ([], license_manager).

(** Lines 70-129. The data of the download button is the CSV pandas
    writes from the rows; the rows stand for it. *)
Definition main (fx : fixture) (now : Z) (license_manager : License.LicenseManager)
    (f : form) (fuel : nat) : M (list widget) :=
  v <- lift (License.validate_key strptime now (license_key f) license_manager) ;;
  let '(is_valid, expiry_date) := v in
  if negb is_valid then ret [error_invalid_license]
  else
    let page := [success_license_valid expiry_date] in
    if negb (truthy (Some (keyword f))) || negb (truthy (Some (location f))) then
      ret (page ++ [warning_fill_both_fields])
    else
      let max_results := max_results_slider f in
      let headless := headless_mode f in
      if start_search f then
        try_except_Exception
          (results <- scrape_google_maps fx (keyword f) (location f) max_results
                        headless fuel ;;
           match results with
           | _ :: _ =>
               ret (page ++ [success_found (length results);
                             dataframe (take 5 results);
                             download_button (file_name (keyword f) (location f))
                               results])
           | [] => ret (page ++ [warning_no_results])
           end)
          (fun e => ret (page ++ [error_scraping_failed e]))
      else ret page.

End Library.

End Page.

(** ** Readings and scenarios for the further properties *)

(** The heights of the last pages: the counter counts scrolls in a row
    that left the height as it was, and the last height is the one of
    the page in view. *)
Definition flat_run (fx : fixture) (st : locals) (n : nat) : Prop :=
  scrollHeight (pages fx n) = Ok (last_height st) /\
  (0 <= scroll_attempts st <= Z.of_nat n)%Z /\
  (forall i, (Z.of_nat n - scroll_attempts st < Z.of_nat i <= Z.of_nat n)%Z ->
             scrollHeight (pages fx i) = scrollHeight (pages fx (i - 1))).

(** While no record has been found, every page read listed cards and
    none of them had a name. *)
Definition nothing_yet (fx : fixture) (st : locals) (n : nat) : Prop :=
  businesses st = [] ->
  forall i, 1 <= i <= n ->
    cards_at fx i <> [] /\ forall c, c ∈ cards_at fx i -> card_entry c = Ok None.

(** A [datetime] of the calendar. *)
Definition is_datetime (t : Z) : Prop :=
  (0 <= t < License.DAYS_TO_MAX * License.MICROSECONDS_PER_DAY)%Z.

(** A date of years 1000 to 9999, whose year [strftime] writes with
    four digits: 1000-01-01 is day 364877. *)
Definition four_digit_year (day : Z) : Prop :=
  (364877 <= day < License.DAYS_TO_MAX)%Z.

(** What sends [main] to the driver: the key entered is valid, both
    search fields are filled and the search button is pressed. *)
Definition search_requested (strptime : string -> outcome Z) (now : Z)
    (license_manager : License.LicenseManager) (f : Page.form) : Prop :=
  (exists expiry_date,
      License.validate_key strptime now (Page.license_key f) license_manager
      = Ok (true, expiry_date)) /\
  Page.keyword f <> EmptyString /\ Page.location f <> EmptyString /\
  Page.start_search f = true.

Module Scenarios.

(** Each scroll shows a page a hundred pixels taller, with the same
    cards. *)
Definition ever_taller (cards : list card) : fixture :=
  {| launch := fun _ => Ok tt;
     pages := fun n => Fixtures.shown (100 * Z.of_nat n) cards |}.

(** Two businesses, and nothing more to load. *)
Definition two_cafes : fixture :=
  Fixtures.still 1000 [Fixtures.named "A"; Fixtures.named "B"].

(** The store with the one key [License.a_wednesday] gives for thirty
    days. *)
Definition one_key : License.LicenseManager :=
  {| License.licenses := {["2026-12-04-00ff" := "2026-12-04"]};
     License.license_file := Some {["2026-12-04-00ff" := "2026-12-04"]} |}.

(** A visitor with the key of [one_key] who searches cafes in Paris. *)
Definition a_search : Page.form :=
  {| Page.admin_portal := false; Page.license_duration := 30;
     Page.generate_new_license := false;
     Page.license_key := "2026-12-04-00ff";
     Page.keyword := "cafe"; Page.location := "Paris";
     Page.max_results_slider := 10; Page.headless_mode := true;
     Page.start_search := true |}.

(** The admin who asks for a licence of thirty days. *)
Definition an_admin : Page.form :=
  {| Page.admin_portal := true; Page.license_duration := 30;
     Page.generate_new_license := true;
     Page.license_key := ""; Page.keyword := ""; Page.location := "";
     Page.max_results_slider := 100; Page.headless_mode := true;
     Page.start_search := false |}.

(** Two businesses on every page; the height is 1000 up to the second
    scroll and 2000 from the third on. *)
Definition one_change : fixture :=
  let cards := [Fixtures.named "A"; Fixtures.named "B"] in
  Fixtures.scripted [Fixtures.shown 1000 cards; Fixtures.shown 1000 cards;
                     Fixtures.shown 1000 cards]
                    (Fixtures.shown 2000 cards).

(** The store of [one_key] after a second key, given for twenty-six
    days with the nonce [abcd]. *)
Definition two_keys : License.LicenseManager :=
  {| License.licenses :=
       <["2026-11-30-abcd" := "2026-11-30"]> {["2026-12-04-00ff" := "2026-12-04"]};
     License.license_file :=
       Some (<["2026-11-30-abcd" := "2026-11-30"]> {["2026-12-04-00ff" := "2026-12-04"]}) |}.

(** A machine on which Chrome does not start. *)
Definition no_chrome : fixture :=
  {| launch := fun _ => Raise WebDriverException;
     pages := fun _ => Fixtures.shown 1000 [Fixtures.named "A"] |}.

(** A visitor who searches with a key the store does not hold. *)
Definition a_stranger : Page.form :=
  {| Page.admin_portal := false; Page.license_duration := 30;
     Page.generate_new_license := false;
     Page.license_key := "no-such-key";
     Page.keyword := "cafe"; Page.location := "Paris";
     Page.max_results_slider := 10; Page.headless_mode := true;
     Page.start_search := true |}.

End Scenarios.

(** ** The extractors *)

Lemma extract_element_caught parent selector :
  extract_element parent selector = Ok (caught (element_text parent selector)).
Proof.
  unfold extract_element. destruct (element_text parent selector); reflexivity.
Qed.

Lemma extract_attribute_caught parent selector attribute :
  extract_attribute parent selector attribute
  = Ok (caught_attribute (element_attribute parent selector attribute)).
Proof.
  unfold extract_attribute.
  destruct (element_attribute parent selector attribute); reflexivity.
Qed.

Lemma card_entry_unit_record c : card_entry c = Ok (unit_record c).
Proof.
  unfold card_entry, unit_record, NAME_SELECTOR.
  destruct (element_text c "div.fontHeadlineSmall") as [[|a n]|e]; simpl; try reflexivity.
  rewrite !extract_element_caught, extract_attribute_caught. reflexivity.
Qed.

Lemma unit_record_Some c b : unit_record c = Some b <-> extracted_from c b.
Proof.
  unfold unit_record, extracted_from. split.
  - destruct (element_text c NAME_SELECTOR) as [[|a n]|e]; simpl; try discriminate.
    intros [= <-]. simpl. repeat split; congruence.
  - intros (Hn & Hne & Hr & Hv & Hc & Ha & Hw & Hp). rewrite Hn. simpl.
    destruct b as [n r v k a w p]; simpl in *. subst.
    destruct n; [contradiction | reflexivity].
Qed.

Lemma unit_record_None c :
  unit_record c = None <->
  raises (element_text c NAME_SELECTOR) \/ element_text c NAME_SELECTOR = Ok EmptyString.
Proof.
  unfold unit_record, raises.
  destruct (element_text c NAME_SELECTOR) as [[|a n]|e]; simpl; split; intros H;
    try discriminate; eauto.
  - destruct H as [[e He] | He]; discriminate.
Qed.

(** ** The [for] loop *)

Lemma for_cards_appended max_results cards bs :
  (Z.of_nat (length bs) < max_results)%Z ->
  for_cards max_results cards bs
  = Ok (bs ++ take (Z.to_nat max_results - length bs) (omap unit_record cards)).
Proof.
  revert bs. induction cards as [|c rest IH]; intros bs Hlt; simpl.
  - rewrite take_nil, app_nil_r. reflexivity.
  - rewrite card_entry_unit_record. simpl.
    destruct (unit_record c) as [b|]; [|apply IH; assumption].
    rewrite length_app. simpl.
    destruct (Z.to_nat max_results - length bs) as [|m] eqn:Hm; [exfalso; lia|].
    destruct (Z.geb_spec (Z.of_nat (length bs + 1)) max_results) as [Hge|Hlt'].
    + assert (m = 0) as -> by lia. rewrite firstn_cons, take_0. reflexivity.
    + rewrite IH by (rewrite length_app; simpl; lia).
      rewrite length_app. simpl.
      replace (Z.to_nat max_results - (length bs + 1)) with m by lia.
      rewrite <- app_assoc. reflexivity.
Qed.


Lemma length_appended_le max_results bs cards :
  (Z.of_nat (length bs) <= max_results)%Z ->
  (Z.of_nat (length (appended max_results bs cards)) <= max_results)%Z.
Proof.
  intros Hle. unfold appended. rewrite length_app, length_take. lia.
Qed.


(** ** One pass *)

Lemma loop_body_pass fx max_results st b :
  loop_body fx max_results st b
  = Some (pass fx max_results st (S (scrolls b)), scrolled b).
Proof.
  unfold loop_body, pass, bind, lift, ret, execute_script_scrollTo,
    execute_script_scrollHeight, presence_of_all_elements_located, scrolled. simpl.
  destruct (arrival (pages fx (S (scrolls b)))) as [[]|e]; simpl; [|reflexivity].
  destruct (scrollHeight (pages fx (S (scrolls b)))) as [h|e]; simpl; [|reflexivity].
  destruct (WebDriverWait_until (articles (pages fx (S (scrolls b))))) as [cards|e];
    simpl; [|reflexivity].
  destruct (for_cards max_results (drop (length (businesses st)) cards) (businesses st));
    reflexivity.
Qed.

Lemma loop_condition_true max_results st :
  loop_condition max_results st = true <->
  (Z.of_nat (length (businesses st)) < max_results)%Z /\ (scroll_attempts st < 5)%Z.
Proof.
  unfold loop_condition. rewrite andb_true_iff, !Z.ltb_lt. reflexivity.
Qed.

Lemma loop_condition_false max_results st :
  loop_condition max_results st = false <->
  (max_results <= Z.of_nat (length (businesses st)))%Z \/ (5 <= scroll_attempts st)%Z.
Proof.
  unfold loop_condition. rewrite andb_false_iff, !Z.ltb_ge. reflexivity.
Qed.

Lemma WebDriverWait_until_Ok found cards :
  WebDriverWait_until found = Ok cards <-> found = Ok cards /\ cards <> [].
Proof.
  unfold WebDriverWait_until. destruct found as [[|c l]|e].
  - split; [discriminate|]. intros [[= <-] Hne]. contradiction.
  - split; [|tauto]. intros [= <-]. split; [reflexivity | discriminate].
  - split; [destruct e; discriminate|]. intros [H _]. discriminate.
Qed.

(** A pass that returns read a page whose calls all succeeded, and
    leaves the locals the page determines. *)
Lemma pass_Ok fx max_results st n st' :
  loop_condition max_results st = true ->
  pass fx max_results st n = Ok st' ->
  exists h cards,
    arrival (pages fx n) = Ok tt /\
    scrollHeight (pages fx n) = Ok h /\
    articles (pages fx n) = Ok cards /\ cards <> [] /\
    businesses st' = appended max_results (businesses st) cards /\
    last_height st' = h /\
    scroll_attempts st' = (if (h =? last_height st)%Z
                           then (scroll_attempts st + 1)%Z else 0%Z).
Proof.
  intros Hc%loop_condition_true Hp. unfold pass in Hp.
  destruct (arrival (pages fx n)) as [[]|e]; [|discriminate]. simpl in Hp.
  destruct (scrollHeight (pages fx n)) as [h|e]; [|discriminate]. simpl in Hp.
  destruct (WebDriverWait_until (articles (pages fx n))) as [cards|e] eqn:Hw;
    [|discriminate]. simpl in Hp.
  apply WebDriverWait_until_Ok in Hw as [Ha Hne].
  rewrite for_cards_appended in Hp by lia. simpl in Hp. injection Hp as <-.
  exists h, cards. simpl.
  unfold appended. repeat split; try assumption; try reflexivity.
Qed.

(** A pass over a page whose calls all return, returns. *)
Lemma pass_healthy fx max_results st n h cards :
  loop_condition max_results st = true ->
  arrival (pages fx n) = Ok tt ->
  scrollHeight (pages fx n) = Ok h ->
  WebDriverWait_until (articles (pages fx n)) = Ok cards ->
  pass fx max_results st n
  = Ok {| businesses := appended max_results (businesses st) cards;
          last_height := h;
          scroll_attempts := if (h =? last_height st)%Z
                             then (scroll_attempts st + 1)%Z else 0%Z |}.
Proof.
  intros Hc%loop_condition_true Ha Hh Hl. unfold pass.
  rewrite Ha, Hh, Hl. simpl.
  rewrite for_cards_appended by lia. reflexivity.
Qed.

(** Without a fault a pass leads from the locals of one page to those
    of the next. *)
Lemma pass_locals_at fx max_results headless i n :
  fault_free fx headless i -> S n <= i ->
  loop_condition max_results (locals_at fx max_results n) = true ->
  pass fx max_results (locals_at fx max_results n) (S n)
  = Ok (locals_at fx max_results (S n)).
Proof.
  intros [_ Hff] Hn Hc.
  destruct (Hff n ltac:(lia)) as (_ & [h0 Hh0] & _).
  destruct (Hff (S n) ltac:(lia)) as (Ha & [h Hh] & Hl).
  destruct Hl as [cards Hl]; [lia|].
  rewrite (pass_healthy _ _ _ _ _ _ Hc Ha Hh Hl).
  apply WebDriverWait_until_Ok in Hl as [Hl _].
  unfold locals_at. simpl. unfold cards_at, height_at. rewrite Hl, Hh, Hh0.
  reflexivity.
Qed.

(** ** The [while] loop *)

Lemma while_loop_unfold fuel fx max_results st b :
  while_loop fuel fx max_results st b
  = if loop_condition max_results st then
      match fuel with
      | O => None
      | S fuel' =>
          match pass fx max_results st (S (scrolls b)) with
          | Ok st' => while_loop fuel' fx max_results st' (scrolled b)
          | Raise e => Some (Raise e, scrolled b)
          end
      end
    else Some (Ok st, b).
Proof.
  destruct fuel as [|fuel']; simpl; destruct (loop_condition max_results st);
    try reflexivity.
  unfold bind. rewrite loop_body_pass.
  destruct (pass fx max_results st (S (scrolls b))); reflexivity.
Qed.

(** The loop leaves the session and the address as they were, and only
    adds scrolls. *)
Lemma while_loop_frame fuel fx max_results st b r b' :
  while_loop fuel fx max_results st b = Some (r, b') ->
  session b' = session b /\ current_url b' = current_url b /\ scrolls b <= scrolls b'.
Proof.
  revert st b. induction fuel as [|fuel IH]; intros st b; rewrite while_loop_unfold;
    destruct (loop_condition max_results st); try discriminate;
    try (intros [= <- <-]; auto).
  destruct (pass fx max_results st (S (scrolls b))) as [st1|e].
  - intros H%IH. simpl in H. destruct H as (? & ? & ?). auto with lia.
  - intros [= <- <-]. simpl. auto.
Qed.

(** Hoare's rule for the loop: a property of the locals and the number
    of scrolls that every returning pass keeps holds when the loop
    returns, with the loop condition false. *)
Lemma while_loop_invariant (I : locals -> nat -> Prop) fx max_results :
  (forall st n st',
      I st n -> loop_condition max_results st = true ->
      pass fx max_results st (S n) = Ok st' -> I st' (S n)) ->
  forall fuel st b st' b',
    I st (scrolls b) ->
    while_loop fuel fx max_results st b = Some (Ok st', b') ->
    I st' (scrolls b') /\ loop_condition max_results st' = false.
Proof.
  intros Hstep. induction fuel as [|fuel IH]; intros st b st' b' HI;
    rewrite while_loop_unfold;
    destruct (loop_condition max_results st) eqn:Hc; try discriminate;
    try (intros [= <- <-]; auto).
  destruct (pass fx max_results st (S (scrolls b))) as [st1|e] eqn:Hp; [|discriminate].
  apply IH. simpl. eapply Hstep; eassumption.
Qed.

(** Without a fault, and while the loop condition holds, [k] passes
    lead from the locals of page [n] to those of page [n + k]. *)
Lemma run_prefix fx max_results headless i k :
  fault_free fx headless i ->
  forall n fuel b,
    scrolls b = n -> n + k <= i ->
    (forall m, n <= m < n + k ->
               loop_condition max_results (locals_at fx max_results m) = true) ->
    while_loop (k + fuel) fx max_results (locals_at fx max_results n) b
    = while_loop fuel fx max_results (locals_at fx max_results (n + k)) (after_scrolls k b).
Proof.
  intros Hff. induction k as [|k IH]; intros n fuel b Hb Hi Hc.
  - rewrite Nat.add_0_r. simpl. f_equal. destruct b; unfold after_scrolls; simpl.
    f_equal. lia.
  - change (S k + fuel) with (S (k + fuel)). rewrite while_loop_unfold.
    rewrite Hc by lia. rewrite Hb.
    rewrite (pass_locals_at _ _ headless i) by (auto; try lia; apply Hc; lia).
    assert (scrolls (scrolled b) = S n) as Hb1 by (simpl; lia).
    assert (forall m, S n <= m < S n + k ->
              loop_condition max_results (locals_at fx max_results m) = true) as Hc1
      by (intros m Hm; apply Hc; lia).
    rewrite (IH (S n) fuel (scrolled b) Hb1 ltac:(lia) Hc1).
    replace (S n + k) with (n + S k) by lia. f_equal.
    unfold after_scrolls, scrolled. simpl. f_equal. lia.
Qed.

(** ** The whole scrape *)

Lemma scrape_google_maps_unfold fx keyword location max_results headless fuel :
  scrape_google_maps fx keyword location max_results headless fuel no_browser
  = match launch fx headless with
    | Raise e => Some (Raise e, no_browser)
    | Ok _ =>
        match arrival (pages fx 0) with
        | Raise e => Some (Raise e, opened keyword location)
        | Ok _ =>
            match scrollHeight (pages fx 0) with
            | Raise e => Some (Raise e, opened keyword location)
            | Ok h =>
                match while_loop fuel fx max_results (initial h)
                        (opened keyword location) with
                | Some (Ok st, b) => Some (Ok (businesses st), closed b)
                | Some (Raise e, b) => Some (Raise e, b)
                | None => None
                end
            end
        end
    end.
Proof.
  unfold scrape_google_maps, bind, Chrome, driver_get, execute_script_scrollHeight,
    driver_quit, ret, opened, closed, initial. simpl.
  destruct (launch fx headless) as [[]|e]; [|reflexivity].
  destruct (arrival (pages fx 0)) as [[]|e]; [|reflexivity]. simpl.
  destruct (scrollHeight (pages fx 0)) as [h|e]; [|reflexivity].
  destruct (while_loop fuel fx max_results _ _) as [[[st|e] b]|]; reflexivity.
Qed.

(** What a scrape that returns has done. *)
Lemma scrape_returns fx keyword location max_results headless fuel bs b' :
  scrape_google_maps fx keyword location max_results headless fuel no_browser
  = Some (Ok bs, b') ->
  exists h st b,
    launch fx headless = Ok tt /\ arrival (pages fx 0) = Ok tt /\
    scrollHeight (pages fx 0) = Ok h /\
    while_loop fuel fx max_results (initial h) (opened keyword location)
    = Some (Ok st, b) /\
    bs = businesses st /\ b' = closed b.
Proof.
  rewrite scrape_google_maps_unfold.
  destruct (launch fx headless) as [[]|e]; [|discriminate].
  destruct (arrival (pages fx 0)) as [[]|e]; [|discriminate].
  destruct (scrollHeight (pages fx 0)) as [h|e]; [|discriminate].
  destruct (while_loop fuel fx max_results _ _) as [[[st|e] b]|] eqn:Hw;
    try discriminate.
  intros [= <- <-]. exists h, st, b. auto 10.
Qed.

Lemma accumulated_pass fx max_results st n st' :
  accumulated fx max_results st n ->
  loop_condition max_results st = true ->
  pass fx max_results st (S n) = Ok st' ->
  accumulated fx max_results st' (S n).
Proof.
  intros (Hbs & Hlt & Hsa) Hc Hp.
  destruct (pass_Ok _ _ _ _ _ Hc Hp) as (h & cards & _ & _ & Ha & _ & Hb & _ & Hs).
  apply loop_condition_true in Hc as [Hlen Hlt5].
  split; [|split].
  - rewrite Hb, Hbs. simpl. unfold cards_at. rewrite Ha. reflexivity.
  - intros i Hi. destruct (decide (i = n)) as [->|Hne].
    + rewrite <- Hbs. exact Hlen.
    + apply Hlt. lia.
  - rewrite Hs. destruct (h =? last_height st)%Z; lia.
Qed.

Lemma scrape_accumulated fx keyword location max_results headless fuel bs b' :
  scrape_google_maps fx keyword location max_results headless fuel no_browser
  = Some (Ok bs, b') ->
  bs = emitted fx max_results (scrolls b') /\
  (forall i, i < scrolls b' ->
             (Z.of_nat (length (emitted fx max_results i)) < max_results)%Z) /\
  session b' = SessionClosed /\
  current_url b' = Some (search_url keyword location).
Proof.
  intros (h & st & b & _ & _ & _ & Hw & -> & ->)%scrape_returns.
  destruct (while_loop_frame _ _ _ _ _ _ _ Hw) as (_ & Hurl & _).
  apply (while_loop_invariant (accumulated fx max_results)) in Hw
    as [(Hbs & Hlt & _) _].
  - simpl. auto.
  - intros st0 n st1. apply accumulated_pass.
  - repeat split; simpl; try lia; intros; lia.
Qed.

Lemma length_emitted_le fx max_results n :
  (0 <= max_results)%Z ->
  (Z.of_nat (length (emitted fx max_results n)) <= max_results)%Z.
Proof.
  intros H0. induction n as [|n IH]; simpl; [lia|].
  apply length_appended_le. exact IH.
Qed.

(** ** The cap on the number of records *)



(** The scrape against a driver whose first calls return, as a run of
    the loop from its first locals. *)
Lemma scrape_fault_free fx keyword location max_results headless fuel i :
  fault_free fx headless i ->
  scrape_google_maps fx keyword location max_results headless fuel no_browser
  = match while_loop fuel fx max_results (locals_at fx max_results 0)
            (opened keyword location) with
    | Some (Ok st, b) => Some (Ok (businesses st), closed b)
    | Some (Raise e, b) => Some (Raise e, b)
    | None => None
    end.
Proof.
  intros [Hl Hff]. destruct (Hff 0 ltac:(lia)) as (Ha & [h Hh] & _).
  rewrite scrape_google_maps_unfold, Hl, Ha, Hh.
  unfold locals_at, initial, height_at. rewrite Hh. reflexivity.
Qed.

(** Without a fault the scrape returns at the first page at which the
    loop condition is false, after as many scrolls, with the records
    accumulated by then. *)
Lemma scrape_exits_at fx keyword location max_results headless fuel j :
  fault_free fx headless j -> j <= fuel ->
  (forall n, n < j -> loop_condition max_results (locals_at fx max_results n) = true) ->
  loop_condition max_results (locals_at fx max_results j) = false ->
  scrape_google_maps fx keyword location max_results headless fuel no_browser
  = Some (Ok (emitted fx max_results j),
          closed (after_scrolls j (opened keyword location))).
Proof.
  intros Hff Hfuel Hbefore Hat.
  rewrite (scrape_fault_free _ _ _ _ _ _ j Hff).
  replace fuel with (j + (fuel - j)) by lia.
  assert (forall m, 0 <= m < 0 + j ->
            loop_condition max_results (locals_at fx max_results m) = true) as Hc
    by (intros m Hm; apply Hbefore; lia).
  rewrite (run_prefix fx max_results headless j j Hff 0 (fuel - j)
             (opened keyword location) eq_refl ltac:(lia) Hc).
  simpl. rewrite while_loop_unfold, Hat. reflexivity.
Qed.



(** ** Units seen twice *)

(** C2. With a card without a name above two businesses, and a list that
    never changes, the second pass starts at [cards[2:]], the number of
    records and not of cards examined: it examines the last card again
    and the scrape returns its record twice. *)
Theorem placeholder_shifts_the_slice :
  scrape_google_maps Fixtures.placeholder_first "cafe" "Paris" 10 true 5 no_browser
  = Some (Ok [Fixtures.only "A"; Fixtures.only "B"; Fixtures.only "B"],
          closed {| session := SessionOpen;
                    current_url := Some (search_url "cafe" "Paris");
                    scrolls := 5 |}).
Proof. vm_compute. reflexivity. Qed.

(** ** Fuel *)

(** A loop that has finished finishes the same way with more fuel. *)
Lemma while_loop_more_fuel fx max_results fuel fuel' st b r :
  while_loop fuel fx max_results st b = Some r ->
  fuel <= fuel' ->
  while_loop fuel' fx max_results st b = Some r.
Proof.
  revert fuel' st b. induction fuel as [|fuel IH]; intros fuel' st b;
    rewrite !while_loop_unfold; destruct (loop_condition max_results st);
    try discriminate; try (intros; assumption).
  intros Hw Hle. destruct fuel' as [|fuel']; [lia|].
  destruct (pass fx max_results st (S (scrolls b))); [|assumption].
  apply IH; [assumption | lia].
Qed.

(** ** Stagnation *)

(** The counter of a pass that returns: one more when the new height is
    the last one, zero otherwise; and the new height is remembered. *)
Lemma pass_counter fx max_results st n st' h :
  scrollHeight (pages fx n) = Ok h ->
  pass fx max_results st n = Ok st' ->
  scroll_attempts st' = (if (h =? last_height st)%Z
                         then (scroll_attempts st + 1)%Z else 0%Z) /\
  last_height st' = h.
Proof.
  intros Hh Hp. unfold pass in Hp. rewrite Hh in Hp.
  destruct (arrival (pages fx n)) as [[]|e]; [|discriminate]. simpl in Hp.
  destruct (WebDriverWait_until (articles (pages fx n))) as [cards|e];
    [|discriminate]. simpl in Hp.
  destruct (for_cards max_results _ _) as [bs|e]; [|discriminate].
  simpl in Hp. injection Hp as <-. simpl. auto.
Qed.

Section Stagnant.

Variables (fx : fixture) (max_results h : Z).
Hypothesis arrives : forall n, arrival (pages fx n) = Ok tt.
Hypothesis flat : forall n, scrollHeight (pages fx n) = Ok h.
Hypothesis listed :
  forall n, exists cards, WebDriverWait_until (articles (pages fx n)) = Ok cards.

(** With the height flat and [k] attempts still to go, the loop
    returns within [k] passes, and after exactly [k] when it has not
    reached the cap. *)
Lemma stagnant_loop k st b :
  last_height st = h ->
  scroll_attempts st = (5 - Z.of_nat k)%Z ->
  exists st' b',
    while_loop k fx max_results st b = Some (Ok st', b') /\
    scrolls b' <= scrolls b + k /\
    ((Z.of_nat (length (businesses st')) < max_results)%Z ->
     scrolls b' = scrolls b + k /\ scroll_attempts st' = 5%Z).
Proof.
  revert st b. induction k as [|k IH]; intros st b Hlast Hsa;
    rewrite while_loop_unfold;
    destruct (loop_condition max_results st) eqn:Hc.
  - apply loop_condition_true in Hc. lia.
  - exists st, b. split; [reflexivity|]. split; [lia|]. intros _. split; lia.
  - destruct (listed (S (scrolls b))) as (cards & Hl).
    rewrite (pass_healthy _ _ _ _ _ _ Hc (arrives _) (flat _) Hl).
    rewrite Hlast, Z.eqb_refl.
    edestruct IH as (st' & b' & Hw & Hle & Hn); [| |rewrite Hw].
    + reflexivity.
    + simpl. lia.
    + exists st', b'. split; [reflexivity|]. simpl in *. split; [lia|].
      intros Hlt. specialize (Hn Hlt). lia.
  - exists st, b. split; [reflexivity|]. split; [lia|].
    apply loop_condition_false in Hc. intros Hlt. lia.
Qed.

End Stagnant.

(** C3. Against a driver whose page height never changes and which
    lists no card, the loop does not reach its exit after five scrolls
    without growth: the wait of the first pass raises
    [TimeoutException], after one scroll, and the session stays open.
    With the same heights and a single card, even one without a name,
    the loop counts its five scrolls and returns. *)
Theorem flat_height_without_cards_raises :
  scrape_google_maps (Fixtures.still 1000 []) "cafe" "Paris" 10 true 5 no_browser
  = Some (Raise TimeoutException,
          {| session := SessionOpen; current_url := Some (search_url "cafe" "Paris");
             scrolls := 1 |}) /\
  scrape_google_maps (Fixtures.still 1000 [Fixtures.placeholder]) "cafe" "Paris" 10 true 5
    no_browser
  = Some (Ok [],
          {| session := SessionClosed; current_url := Some (search_url "cafe" "Paris");
             scrolls := 5 |}).
Proof. split; vm_compute; reflexivity. Qed.

(** ** A search without results *)

(** C4. Against a driver that never lists a card, whatever the height,
    a scrape with [max_results >= 1] does not reach the stagnation exit:
    the wait of its first pass raises [TimeoutException], and the
    session stays open. Only with [max_results <= 0], where the loop is
    not entered, does it return the empty list. *)
Theorem no_card_times_out (h : Z) keyword location max_results headless fuel :
  scrape_google_maps (Fixtures.still h []) keyword location max_results headless
    (S fuel) no_browser
  = if (0 <? max_results)%Z
    then Some (Raise TimeoutException, scrolled (opened keyword location))
    else Some (Ok [], closed (opened keyword location)).
Proof.
  rewrite scrape_google_maps_unfold. cbn [Fixtures.still launch pages Fixtures.shown
    arrival scrollHeight].
  rewrite while_loop_unfold. unfold loop_condition, pass. cbn. rewrite andb_true_r.
  change (Z.of_nat 0) with 0%Z. destruct (0 <? max_results)%Z; reflexivity.
Qed.

(** ** The session on the way out *)

(** A scrape that returns has closed its session. *)
Lemma scrape_returns_closed fx keyword location max_results headless fuel bs b' :
  scrape_google_maps fx keyword location max_results headless fuel no_browser
  = Some (Ok bs, b') ->
  session b' = SessionClosed.
Proof. intros H%scrape_accumulated. tauto. Qed.

(** A scrape that raises once Chrome has started leaves the session
    open. *)
Lemma scrape_raises_open fx keyword location max_results headless fuel e b' :
  launch fx headless = Ok tt ->
  scrape_google_maps fx keyword location max_results headless fuel no_browser
  = Some (Raise e, b') ->
  session b' = SessionOpen.
Proof.
  intros Hl. rewrite scrape_google_maps_unfold, Hl.
  destruct (arrival (pages fx 0)) as [[]|e0]; [|intros [= _ <-]; reflexivity].
  destruct (scrollHeight (pages fx 0)) as [h|e0]; [|intros [= _ <-]; reflexivity].
  destruct (while_loop fuel fx max_results _ _) as [[[st|e0] b]|] eqn:Hw;
    try discriminate.
  intros [= _ <-]. apply while_loop_frame in Hw as [Hs _]. exact Hs.
Qed.

(** C5. When the navigation fails the scrape raises with the session
    still open: [driver.quit()] is reached only on the return path. *)
Theorem navigation_fault_leaves_session_open keyword location max_results headless fuel :
  exists b',
    scrape_google_maps Fixtures.unreachable keyword location max_results headless
      fuel no_browser
    = Some (Raise WebDriverException, b') /\
    session b' = SessionOpen.
Proof.
  exists (opened keyword location). split; [|reflexivity].
  rewrite scrape_google_maps_unfold. reflexivity.
Qed.

(** ** Missing fields *)

Lemma caught_raises {A} (c : outcome A) : raises c -> caught c = None.
Proof. intros [e ->]. reflexivity. Qed.

(** C6. A card whose headline is found with a text that is not empty
    yields a record with that name, whichever of the six other lookups
    fail: the field of a lookup that raised is [None], the others hold
    what was found. Neither extractor ever raises: a lookup that raised
    is turned into [None]. *)
Theorem named_card_yields_record c name :
  element_text c NAME_SELECTOR = Ok name ->
  name <> EmptyString ->
  (exists b,
      card_entry c = Ok (Some b) /\ Name b = name /\ extracted_from c b /\
      (raises (element_text c "span.MW4etd") -> Rating b = None) /\
      (raises (element_text c "span.UY7F9") -> Reviews b = None) /\
      (raises (element_text c "div.W4Efsd:first-child > div:first-child") ->
       Category b = None) /\
      (raises (element_text c "div.W4Efsd:nth-child(2) > span:nth-child(2)") ->
       Address b = None) /\
      (raises (element_attribute c "a[data-item-id='website']" "href") ->
       Website b = None) /\
      (raises (element_text c "a[data-item-id='phone']") -> Phone b = None)) /\
  (forall parent selector,
      ~ raises (extract_element parent selector) /\
      (raises (element_text parent selector) ->
       extract_element parent selector = Ok None)) /\
  (forall parent selector attribute,
      ~ raises (extract_attribute parent selector attribute) /\
      (raises (element_attribute parent selector attribute) ->
       extract_attribute parent selector attribute = Ok None)).
Proof.
  intros Hname Hne. split; [|split].
  - destruct (unit_record c) as [b|] eqn:Hb.
    + pose proof (proj1 (unit_record_Some c b) Hb) as Hx.
      destruct Hx as (Hn & Hnn & Hr & Hv & Hc & Ha & Hw & Hp).
      exists b. rewrite card_entry_unit_record, Hb.
      split; [reflexivity|]. split; [congruence|].
      split; [unfold extracted_from; auto 10|].
      rewrite Hr, Hv, Hc, Ha, Hw, Hp.
      repeat split; try apply caught_raises.
      intros [e ->]. reflexivity.
    + apply unit_record_None in Hb as [[e He]|He]; congruence.
  - intros parent selector. rewrite extract_element_caught. split.
    + intros [e He]. discriminate.
    + intros H. rewrite (caught_raises _ H). reflexivity.
  - intros parent selector attribute. rewrite extract_attribute_caught. split.
    + intros [e He]. discriminate.
    + intros [e ->]. reflexivity.
Qed.

Lemma named_card_yields_record_witness :
  exists b,
    card_entry (Fixtures.named "Joe's Garage") = Ok (Some b) /\
    Name b = "Joe's Garage" /\ Rating b = None /\ Website b = None.
Proof.
  destruct (named_card_yields_record (Fixtures.named "Joe's Garage") "Joe's Garage"
              eq_refl ltac:(discriminate))
    as [(b & Hb & Hn & _ & Hr & _ & _ & _ & Hw & _) _].
  exists b. split; [exact Hb|]. split; [exact Hn|]. split.
  - apply Hr. exists NoSuchElementException. reflexivity.
  - apply Hw. exists NoSuchElementException. reflexivity.
Defined.

(** ** Names in the result *)

Lemma emitted_provenance fx max_results n b :
  b ∈ emitted fx max_results n ->
  exists i c, 1 <= i <= n /\ c ∈ cards_at fx i /\ unit_record c = Some b.
Proof.
  induction n as [|n IH]; simpl.
  - intros H. inversion H.
  - unfold appended. rewrite elem_of_app. intros [Hin|Hin].
    + destruct (IH Hin) as (i & c & Hi & Hc & Hb). exists i, c. auto with lia.
    + apply subseteq_take in Hin. apply list_elem_of_omap in Hin as (c & Hc & Hb).
      apply subseteq_drop in Hc. exists (S n), c. auto with lia.
Qed.

Lemma for_cards_never_raises max_results cards bs :
  ~ raises (for_cards max_results cards bs).
Proof.
  revert bs. induction cards as [|c rest IH]; intros bs [e He]; simpl in He.
  - discriminate.
  - rewrite card_entry_unit_record in He. simpl in He.
    destruct (unit_record c) as [b|]; [|apply (IH bs); exists e; exact He].
    destruct (_ >=? _)%Z; [discriminate|]. apply (IH (bs ++ [b])). exists e. exact He.
Qed.

(** C7. Every record a scrape returns has a name that is not empty and
    is what one of the cards on a page the scrape read shows: its fields
    are the texts found on that card, or [None]. A card whose headline
    lookup raises, or is empty, adds nothing and raises nothing. *)
Theorem every_record_is_named fx keyword location max_results headless fuel bs b' :
  scrape_google_maps fx keyword location max_results headless fuel no_browser
  = Some (Ok bs, b') ->
  (forall b, b ∈ bs ->
     Name b <> EmptyString /\
     exists i c, 1 <= i <= scrolls b' /\ c ∈ cards_at fx i /\ extracted_from c b) /\
  (forall c cards bs0 k,
     raises (element_text c NAME_SELECTOR) \/ element_text c NAME_SELECTOR = Ok EmptyString ->
     card_entry c = Ok None /\
     for_cards k (c :: cards) bs0 = for_cards k cards bs0) /\
  (forall k cards bs0, ~ raises (for_cards k cards bs0)).
Proof.
  intros (Hbs & _)%scrape_accumulated. split; [|split].
  - intros b Hb. rewrite Hbs in Hb.
    apply emitted_provenance in Hb as (i & c & Hi & Hc & Hr).
    apply unit_record_Some in Hr. split.
    + destruct Hr as (_ & Hne & _). exact Hne.
    + exists i, c. auto.
  - intros c cards bs0 k Hmiss%unit_record_None. simpl.
    rewrite card_entry_unit_record, Hmiss. auto.
  - intros k cards bs0. apply for_cards_never_raises.
Qed.

Lemma every_record_is_named_witness :
  (forall b, b ∈ [Fixtures.only "A"; Fixtures.only "B"; Fixtures.only "B"] ->
     Name b <> EmptyString /\
     exists i c, 1 <= i <= 5 /\ c ∈ cards_at Fixtures.placeholder_first i /\
                 extracted_from c b) /\
  (forall c cards bs0 k,
     raises (element_text c NAME_SELECTOR) \/ element_text c NAME_SELECTOR = Ok EmptyString ->
     card_entry c = Ok None /\
     for_cards k (c :: cards) bs0 = for_cards k cards bs0) /\
  (forall k cards bs0, ~ raises (for_cards k cards bs0)).
Proof.
  exact (every_record_is_named Fixtures.placeholder_first "cafe" "Paris" 10 true 5
           [Fixtures.only "A"; Fixtures.only "B"; Fixtures.only "B"]
           (closed {| session := SessionOpen;
                      current_url := Some (search_url "cafe" "Paris");
                      scrolls := 5 |})
           eq_refl).
Defined.

(** ** The address of the search *)

Lemma append_cons (c : ascii) (s1 s2 : string) :
  String c s1 +:+ s2 = String c (s1 +:+ s2).
Proof. reflexivity. Qed.

Lemma append_assoc (s1 s2 s3 : string) : (s1 +:+ s2) +:+ s3 = s1 +:+ s2 +:+ s3.
Proof.
  induction s1 as [|c s1 IH]; [reflexivity|].
  rewrite !append_cons, IH. reflexivity.
Qed.

Lemma replace_app old new s1 s2 :
  replace old new (s1 +:+ s2) = replace old new s1 +:+ replace old new s2.
Proof.
  induction s1 as [|c s1 IH]; [reflexivity|].
  rewrite append_cons. simpl. rewrite IH.
  destruct (Ascii.eqb c old); [|reflexivity].
  symmetry. apply append_assoc.
Qed.

Lemma list_ascii_of_string_app s1 s2 :
  list_ascii_of_string (s1 +:+ s2) = list_ascii_of_string s1 ++ list_ascii_of_string s2.
Proof.
  induction s1 as [|c s1 IH]; [reflexivity|].
  rewrite append_cons. simpl. rewrite IH. reflexivity.
Qed.

(** [replace] character by character. *)
Lemma replace_flat_map old new s :
  list_ascii_of_string (replace old new s)
  = flat_map (fun c => if Ascii.eqb c old then list_ascii_of_string new else [c])
             (list_ascii_of_string s).
Proof.
  induction s as [|c s IH]; simpl; [reflexivity|].
  destruct (Ascii.eqb c old); simpl.
  - rewrite list_ascii_of_string_app, IH. reflexivity.
  - rewrite IH. reflexivity.
Qed.

Lemma replace_leaves_no_space s :
  ~ In " "%char (list_ascii_of_string (replace " " "%20" s)).
Proof.
  induction s as [|c s IH]; simpl; [tauto|].
  destruct (Ascii.eqb_spec c " "); simpl.
  - intros [H|[H|[H|H]]]; try discriminate. exact (IH H).
  - intros [H|H]; [congruence | exact (IH H)].
Qed.

(** Once Chrome has started, the address the browser was sent to is
    [search_url], however the scrape ends. *)
Lemma scrape_current_url fx keyword location max_results headless fuel r b' :
  launch fx headless = Ok tt ->
  scrape_google_maps fx keyword location max_results headless fuel no_browser
  = Some (r, b') ->
  current_url b' = Some (search_url keyword location).
Proof.
  intros Hl. rewrite scrape_google_maps_unfold, Hl.
  destruct (arrival (pages fx 0)) as [[]|e0]; [|intros [= _ <-]; reflexivity].
  destruct (scrollHeight (pages fx 0)) as [h|e0]; [|intros [= _ <-]; reflexivity].
  destruct (while_loop fuel fx max_results _ _) as [[[st|e0] b]|] eqn:Hw;
    try discriminate; apply while_loop_frame in Hw as (_ & Hu & _);
    intros [= _ <-]; exact Hu.
Qed.

(** Apart from the space and the three characters written for it, a
    character is in the query exactly when it is in the text. *)
Lemma replace_keeps_other_characters s c :
  c <> " "%char -> c <> "%"%char -> c <> "2"%char -> c <> "0"%char ->
  In c (list_ascii_of_string (replace " " "%20" s)) <-> In c (list_ascii_of_string s).
Proof.
  intros Hs Hp H2 H0. induction s as [|a s IH]; simpl; [tauto|].
  destruct (Ascii.eqb_spec a " ") as [->|Hne]; simpl.
  - rewrite IH. split.
    + intros [H|[H|[H|H]]]; try congruence. right. exact H.
    + intros [H|H]; [congruence|]. right. right. right. exact H.
  - rewrite IH. tauto.
Qed.

(** On a text of unreserved characters and spaces, replacing the spaces
    is percent-encoding. *)
Lemma replace_percent_encoded s :
  plain_text s = true -> replace " " "%20" s = percent_encoded s.
Proof.
  unfold plain_text. induction s as [|a s IH]; simpl; [reflexivity|].
  intros [Ha Hs]%andb_true_iff. rewrite (IH Hs).
  destruct (Ascii.eqb_spec a " ") as [->|Hne]; [reflexivity|].
  rewrite orb_false_r in Ha. rewrite Ha. reflexivity.
Qed.

Lemma plain_text_app s1 s2 :
  plain_text (s1 +:+ s2) = plain_text s1 && plain_text s2.
Proof.
  unfold plain_text. rewrite list_ascii_of_string_app. apply forallb_app.
Qed.

(** A keyword with a question mark: the mark and the equals sign after
    it reach the address as they are, where percent-encoding writes
    [%3F] and [%3D], and the address has a query part, [hl=fr...]. *)
Lemma query_mark_reaches_the_address :
  (exists r b',
      scrape_google_maps Scenarios.two_cafes "cafe?hl=fr" "Paris" 10 true 5 no_browser
      = Some (r, b') /\
      current_url b'
      = Some "https://www.google.com/maps/search/cafe?hl=fr%20in%20Paris/") /\
  percent_encoded "cafe?hl=fr in Paris" = "cafe%3Fhl%3Dfr%20in%20Paris" /\
  search_query "cafe?hl=fr" "Paris" <> percent_encoded "cafe?hl=fr in Paris".
Proof.
  split; [|split; [vm_compute; reflexivity | vm_compute; discriminate]].
  eexists. eexists. split; [vm_compute; reflexivity | reflexivity].
Qed.

(** C8. The address passed to [driver.get] is the search base, then
    ["keyword in location"] with every space replaced by [%20], then a
    slash, and nothing after it. The replacement rewrites each space of
    the keyword and of the location and the two around [in], copies
    every other character as it is, and leaves no space: a character
    other than those of [%20] is in the query exactly when it is in the
    keyword, the location or [in], a question mark among them. The
    query is the percent-encoding of ["keyword in location"] when the
    keyword and the location hold unreserved characters and spaces
    only. *)
Theorem navigated_url fx keyword location max_results headless fuel r b' :
  launch fx headless = Ok tt ->
  scrape_google_maps fx keyword location max_results headless fuel no_browser
  = Some (r, b') ->
  current_url b'
  = Some ("https://www.google.com/maps/search/"
          +:+ replace " " "%20" (keyword +:+ " in " +:+ location) +:+ "/") /\
  replace " " "%20" (keyword +:+ " in " +:+ location)
  = replace " " "%20" keyword +:+ "%20in%20" +:+ replace " " "%20" location /\
  list_ascii_of_string (replace " " "%20" (keyword +:+ " in " +:+ location))
  = flat_map (fun c => if Ascii.eqb c " " then ["%"; "2"; "0"]%char else [c])
             (list_ascii_of_string (keyword +:+ " in " +:+ location)) /\
  ~ In " "%char
       (list_ascii_of_string (replace " " "%20" (keyword +:+ " in " +:+ location))) /\
  (forall c, c <> " "%char -> c <> "%"%char -> c <> "2"%char -> c <> "0"%char ->
     (In c (list_ascii_of_string
              (replace " " "%20" (keyword +:+ " in " +:+ location)))
      <-> In c (list_ascii_of_string (keyword +:+ " in " +:+ location)))) /\
  (plain_text keyword = true -> plain_text location = true ->
   replace " " "%20" (keyword +:+ " in " +:+ location)
   = percent_encoded (keyword +:+ " in " +:+ location)).
Proof.
  intros Hl Hs. split; [|split; [|split; [|split; [|split]]]].
  - exact (scrape_current_url _ _ _ _ _ _ _ _ Hl Hs).
  - rewrite !replace_app. reflexivity.
  - apply replace_flat_map.
  - apply replace_leaves_no_space.
  - intros c. apply replace_keeps_other_characters.
  - intros Hk Hloc. apply replace_percent_encoded.
    rewrite !plain_text_app, Hk, Hloc. reflexivity.
Qed.

Lemma navigated_url_witness :
  current_url (closed {| session := SessionOpen;
                         current_url := Some (search_url "Mechanic" "New York");
                         scrolls := 3 |})
  = Some "https://www.google.com/maps/search/Mechanic%20in%20New%20York/" /\
  replace " " "%20" "Mechanic in New York" = "Mechanic%20in%20New%20York" /\
  replace " " "%20" "Mechanic in New York" = percent_encoded "Mechanic in New York".
Proof.
  destruct (navigated_url Fixtures.twelve_units "Mechanic" "New York" 10 true 8
              (Ok (map Fixtures.only (take 10 Fixtures.twelve_names)))
              (closed {| session := SessionOpen;
                         current_url := Some (search_url "Mechanic" "New York");
                         scrolls := 3 |})
              eq_refl eq_refl) as (Hu & Hq & _ & _ & _ & He).
  split; [exact Hu | split; [exact Hq | exact (He eq_refl eq_refl)]].
Defined.

(** ** Termination *)

Section EventuallyFlat.

Variables (fx : fixture) (max_results : Z) (N : nat) (h : Z).
Hypothesis flat_from_N : forall n, N <= n -> scrollHeight (pages fx n) = Ok h.

(** Past page [N], with the flat height as the last one read and at
    most [k] attempts missing, [k] passes end the loop. *)
Lemma flat_phase k st b :
  N <= scrolls b ->
  last_height st = h ->
  (5 - Z.of_nat k <= scroll_attempts st)%Z ->
  exists r b',
    while_loop k fx max_results st b = Some (r, b') /\ scrolls b' <= scrolls b + k.
Proof.
  revert st b. induction k as [|k IH]; intros st b HN Hlast Hsa;
    rewrite while_loop_unfold;
    destruct (loop_condition max_results st) eqn:Hc;
    try (exists (Ok st), b; split; [reflexivity | lia]).
  - apply loop_condition_true in Hc. lia.
  - destruct (pass fx max_results st (S (scrolls b))) as [st1|e] eqn:Hp.
    + destruct (pass_counter _ _ _ _ _ _ (flat_from_N (S (scrolls b)) ltac:(lia)) Hp)
        as [Hsa1 Hlast1].
      rewrite Hlast, Z.eqb_refl in Hsa1.
      destruct (IH st1 (scrolled b)) as (r & b' & Hw & Hle); simpl; try lia;
        try assumption.
      exists r, b'. simpl in Hle. split; [exact Hw | lia].
    + exists (Raise e), (scrolled b). simpl. split; [reflexivity | lia].
Qed.

(** From anywhere, [m] passes reach page [N] and five more end the
    loop. *)
Lemma transient_phase m st b :
  N <= scrolls b + m ->
  (0 <= scroll_attempts st)%Z ->
  (m = 0 -> last_height st = h) ->
  exists r b',
    while_loop (m + 5) fx max_results st b = Some (r, b') /\
    scrolls b' <= scrolls b + m + 5.
Proof.
  revert st b. induction m as [|m IH]; intros st b HN Hsa Hlast.
  - destruct (flat_phase 5 st b) as (r & b' & Hw & Hle); try lia; auto.
    exists r, b'. split; [exact Hw | lia].
  - change (S m + 5) with (S (m + 5)). rewrite while_loop_unfold.
    destruct (loop_condition max_results st) eqn:Hc;
      [|exists (Ok st), b; split; [reflexivity | lia]].
    destruct (pass fx max_results st (S (scrolls b))) as [st1|e] eqn:Hp;
      [|exists (Raise e), (scrolled b); simpl; split; [reflexivity | lia]].
    destruct (pass_Ok _ _ _ _ _ Hc Hp) as (h1 & cards & _ & Hh1 & _ & _ & _ & Hl1 & Hs1).
    destruct (IH st1 (scrolled b)) as (r & b' & Hw & Hle); simpl.
    + lia.
    + rewrite Hs1. destruct (h1 =? last_height st)%Z; lia.
    + intros ->. rewrite flat_from_N in Hh1 by lia. congruence.
    + exists r, b'. simpl in Hle. split; [exact Hw | lia].
Qed.

End EventuallyFlat.

(** On a driver none of whose calls raises, the loop does not raise. *)
Lemma healthy_loop_returns fx max_results fuel st b e b' :
  healthy fx ->
  while_loop fuel fx max_results st b <> Some (Raise e, b').
Proof.
  intros Hfx. revert st b. induction fuel as [|fuel IH]; intros st b;
    rewrite while_loop_unfold;
    destruct (loop_condition max_results st) eqn:Hc; try discriminate.
  destruct (Hfx (S (scrolls b))) as (Ha & [h1 Hh] & (cards & Hl)).
  rewrite (pass_healthy _ _ _ _ _ _ Hc Ha Hh Hl). apply IH.
Qed.

(** C9. When the page height is the same from page [N] on, the scrape
    ends, by returning or by raising, with any fuel of [N + 5] or more
    and after at most [N + 5] scrolls: five flat scrolls in a row end
    the loop unless the cap or a fault ended it before. On a driver
    none of whose calls raises it ends by returning. *)
Theorem scroll_loop_terminates fx keyword location max_results headless N h fuel :
  (forall n, N <= n -> scrollHeight (pages fx n) = Ok h) ->
  N + 5 <= fuel ->
  exists r b',
    scrape_google_maps fx keyword location max_results headless fuel no_browser
    = Some (r, b') /\
    scrolls b' <= N + 5 /\
    (launch fx headless = Ok tt -> healthy fx -> exists bs, r = Ok bs).
Proof.
  intros Hflat Hfuel. rewrite scrape_google_maps_unfold.
  destruct (launch fx headless) as [[]|e];
    [|exists (Raise e), no_browser; repeat split; [simpl; lia | discriminate]].
  destruct (arrival (pages fx 0)) as [[]|e] eqn:Ha;
    [|exists (Raise e), (opened keyword location); repeat split; [simpl; lia|];
      intros _ Hfx; destruct (Hfx 0) as (Ha0 & _); congruence].
  destruct (scrollHeight (pages fx 0)) as [h0|e] eqn:Hh;
    [|exists (Raise e), (opened keyword location); repeat split; [simpl; lia|];
      intros _ Hfx; destruct (Hfx 0) as (_ & [h0 Hh0] & _); congruence].
  destruct (transient_phase fx max_results N h Hflat N (initial h0)
              (opened keyword location)) as (r & b & Hw & Hle); simpl; try lia.
  { intros ->. rewrite Hflat in Hh by lia. congruence. }
  apply (while_loop_more_fuel _ _ _ fuel) in Hw; [|exact Hfuel].
  rewrite Hw. simpl in Hle. destruct r as [st|e].
  - exists (Ok (businesses st)), (closed b). repeat split; [simpl; lia | eauto].
  - exists (Raise e), b. repeat split; [lia|].
    intros _ Hfx. exfalso. exact (healthy_loop_returns _ _ _ _ _ _ _ Hfx Hw).
Qed.

Lemma scroll_loop_terminates_witness :
  exists r b',
    scrape_google_maps Fixtures.twelve_units "Mechanic" "New York" 100 true 8 no_browser
    = Some (r, b') /\
    scrolls b' <= 3 + 5 /\
    (launch Fixtures.twelve_units true = Ok tt -> healthy Fixtures.twelve_units ->
     exists bs, r = Ok bs).
Proof.
  apply (scroll_loop_terminates Fixtures.twelve_units "Mechanic" "New York" 100 true
           3 3200 8).
  - intros n Hn. do 3 (destruct n as [|n]; [lia|]). destruct n; reflexivity.
  - lia.
Defined.

(** ** Licences *)

Import License.

(** *** The calendar reads back what it writes *)

Lemma all_from_spec n lo :
  all_from n lo = true ->
  forall doe, (lo <= doe < lo + Z.of_nat n)%Z -> cycle_day_ok doe = true.
Proof.
  revert lo. induction n as [|n IH]; intros lo H doe Hdoe; [lia|].
  simpl in H. apply andb_true_iff in H as [H0 H].
  destruct (decide (doe = lo)) as [->|Hne]; [exact H0|].
  apply (IH _ H). lia.
Qed.

(** Every day of a cycle passes the check. *)
Lemma cycle_checked : all_from (Z.to_nat 146097) 0 = true.
Proof. vm_compute. reflexivity. Qed.

Lemma cycle_day doe : (0 <= doe < 146097)%Z -> cycle_day_ok doe = true.
Proof. intros H. apply (all_from_spec _ _ cycle_checked). lia. Qed.

(** On every date of years 1 to 9999 the two conversions are inverse
    and give a year, a month and a day in range. *)
Lemma civil_of_day_inverse day :
  (0 <= day < DAYS_TO_MAX)%Z ->
  exists y m d,
    civil_of_day day = (y, m, d) /\ day_of_civil y m d = day /\
    (1 <= y <= 9999)%Z /\ (1 <= m <= 12)%Z /\ (1 <= d <= 31)%Z.
Proof.
  unfold DAYS_TO_MAX. intros Hday. unfold civil_of_day.
  pose proof (Z.mod_pos_bound (day + 306) 146097 eq_refl) as Hdoe.
  pose proof (Z.div_mod (day + 306) 146097 ltac:(lia)) as Hz.
  set (era := ((day + 306) / 146097)%Z) in *.
  set (doe := ((day + 306) mod 146097)%Z) in *.
  pose proof (cycle_day doe Hdoe) as Hok. unfold cycle_day_ok in Hok.
  destruct (civil_of_doe doe) as [[yoe m] d].
  repeat (apply andb_true_iff in Hok as [Hok ?]).
  repeat match goal with
         | H : (_ <=? _)%Z = true |- _ => apply Z.leb_le in H
         | H : (_ =? _)%Z = true |- _ => apply Z.eqb_eq in H
         end.
  assert (0 <= era <= 24)%Z as Hera by lia.
  assert ((yoe + era * 400) / 400 = era)%Z as Hdiv.
  { rewrite Z.div_add by lia. rewrite Z.div_small by lia. lia. }
  assert ((yoe + era * 400) mod 400 = yoe)%Z as Hmod.
  { rewrite Z.mod_add by lia. apply Z.mod_small. lia. }
  eexists _, m, d. split; [reflexivity|].
  unfold day_of_civil.
  destruct (Z.leb_spec m 2) as [Hm|Hm].
  - replace (yoe + era * 400 + 1 - 1)%Z with (yoe + era * 400)%Z by lia.
    rewrite Hdiv, Hmod.
    destruct (Z.leb_spec 306 doe), (Z.ltb_spec doe 146037); simpl in *;
      repeat match goal with
             | H : (_ <=? _)%Z = true |- _ => apply Z.leb_le in H
             end; lia.
  - rewrite Hdiv, Hmod.
    destruct (Z.leb_spec 306 doe), (Z.ltb_spec doe 146037); simpl in *;
      repeat match goal with
             | H : (_ <=? _)%Z = true |- _ => apply Z.leb_le in H
             end; lia.
Qed.

Lemma digit_value_digit n : digit_value (digit n) = Some (n mod 10)%Z.
Proof.
  unfold digit, digit_value.
  pose proof (Z.mod_pos_bound n 10 eq_refl) as Hn.
  rewrite nat_ascii_embedding by lia.
  rewrite (proj2 (Nat.leb_le _ _)) by lia.
  rewrite (proj2 (Nat.leb_le _ _)) by lia.
  simpl. f_equal. lia.
Qed.

Lemma number_pad4 y :
  (0 <= y <= 9999)%Z ->
  number [digit (y / 1000); digit (y / 100); digit (y / 10); digit y] = Some y.
Proof.
  intros Hy. unfold number. cbn [foldl]. rewrite !digit_value_digit. cbn.
  f_equal. Z.to_euclidean_division_equations. lia.
Qed.

Lemma number_pad2 n :
  (0 <= n <= 99)%Z -> number [digit (n / 10); digit n] = Some n.
Proof.
  intros Hn. unfold number. cbn [foldl]. rewrite !digit_value_digit. cbn.
  f_equal. Z.to_euclidean_division_equations. lia.
Qed.

(** [iso_strptime] reads back the text [iso_strftime] writes for any
    date of years 1 to 9999, and that text is not empty. *)
Lemma iso_reads_back day :
  (0 <= day < DAYS_TO_MAX)%Z ->
  iso_strftime day <> EmptyString /\ iso_strptime (iso_strftime day) = Ok day.
Proof.
  intros (y & m & d & Hc & Hd & Hy & Hm & Hdd)%civil_of_day_inverse.
  unfold iso_strftime. rewrite Hc. split; [discriminate|].
  unfold iso_strptime.
  rewrite number_pad4, !number_pad2 by lia.
  rewrite Hd, Hc, bool_decide_eq_true_2 by reflexivity.
  rewrite !(proj2 (Z.leb_le _ _)) by lia. reflexivity.
Qed.

(** *** Keys *)

Lemma date_of_add_days now days :
  date_of (now + days * MICROSECONDS_PER_DAY) = (date_of now + days)%Z.
Proof. unfold date_of. apply Z.div_add. discriminate. Qed.

Lemma truthy_Some (s : string) : s <> EmptyString -> truthy (Some s) = true.
Proof. destruct s; [contradiction | reflexivity]. Qed.

(** A key the store does not hold is refused. *)
Lemma validate_key_unknown strptime now key self :
  licenses self !! key = None ->
  validate_key strptime now key self = Ok (false, None).
Proof. unfold validate_key. intros ->. reflexivity. Qed.

(** The round trip for any [strftime] and [strptime] that agree on the
    text of the expiry date. *)
Lemma generate_then_validate strftime strptime sha256_b64 now nonce duration_days
    self later :
  (1 <= duration_days)%Z ->
  (0 <= now)%Z ->
  (now + duration_days * MICROSECONDS_PER_DAY < DAYS_TO_MAX * MICROSECONDS_PER_DAY)%Z ->
  strftime (date_of now + duration_days)%Z <> EmptyString ->
  strptime (strftime (date_of now + duration_days)%Z)
  = Ok (date_of now + duration_days)%Z ->
  (later < midnight (date_of now + duration_days))%Z ->
  exists key self',
    generate_key strftime sha256_b64 now nonce duration_days self
    = Ok (key, strftime (date_of now + duration_days)%Z, self') /\
    licenses self' !! key = Some (strftime (date_of now + duration_days)%Z) /\
    license_file self' = Some (licenses self') /\
    validate_key strptime later key self'
    = Ok (true, Some (strftime (date_of now + duration_days)%Z)).
Proof.
  intros Hd Hnow Hmax Htext Hread Hlater.
  unfold generate_key, timedelta, datetime_add.
  assert ((Z.abs duration_days <=? MAX_DELTA_DAYS)%Z = true) as ->.
  { apply Z.leb_le. unfold MAX_DELTA_DAYS, DAYS_TO_MAX, MICROSECONDS_PER_DAY in *. lia. }
  simpl.
  assert ((0 <=? now + duration_days * MICROSECONDS_PER_DAY)%Z
          && (now + duration_days * MICROSECONDS_PER_DAY
              <? DAYS_TO_MAX * MICROSECONDS_PER_DAY)%Z = true) as ->.
  { apply andb_true_iff. split; [apply Z.leb_le | apply Z.ltb_lt; exact Hmax].
    unfold MICROSECONDS_PER_DAY. lia. }
  simpl. rewrite date_of_add_days.
  eexists. eexists. split; [reflexivity|]. simpl.
  split; [apply lookup_insert_eq|]. split; [reflexivity|].
  unfold validate_key. simpl. rewrite lookup_insert_eq.
  rewrite (truthy_Some _ Htext), Hread. simpl.
  apply Z.ltb_lt in Hlater. rewrite Hlater. reflexivity.
Qed.

(** [generate_key] raises once the expiry would pass the last day of
    year 9999. *)
Lemma generate_key_overflows :
  (1 <= 4000000)%Z /\
  generate_key iso_strftime plain a_wednesday "00ff" 4000000 (__init__ None)
  = Raise OverflowError.
Proof. split; [lia | vm_compute; reflexivity]. Qed.

(** C10. For [duration_days >= 1] with the expiry still a date of the
    calendar (before year 10000), [generate_key] returns a key and the
    text of the current date plus [duration_days] days, stores the one
    under the other and saves the store; [validate_key] on that key,
    called before that date begins, returns [(True, expiry)]. A key the
    store does not hold gets [(False, None)]. *)
Theorem license_round_trip sha256_b64 now nonce duration_days self later :
  (1 <= duration_days)%Z ->
  (0 <= now)%Z ->
  (now + duration_days * MICROSECONDS_PER_DAY < DAYS_TO_MAX * MICROSECONDS_PER_DAY)%Z ->
  (later < midnight (date_of now + duration_days))%Z ->
  (exists key self',
      generate_key iso_strftime sha256_b64 now nonce duration_days self
      = Ok (key, iso_strftime (date_of now + duration_days)%Z, self') /\
      licenses self' !! key = Some (iso_strftime (date_of now + duration_days)%Z) /\
      license_file self' = Some (licenses self') /\
      validate_key iso_strptime later key self'
      = Ok (true, Some (iso_strftime (date_of now + duration_days)%Z))) /\
  (forall t key0 self0,
      licenses self0 !! key0 = None ->
      validate_key iso_strptime t key0 self0 = Ok (false, None)).
Proof.
  intros Hd Hnow Hmax Hlater. split; [|intros t key0 self0; apply validate_key_unknown].
  assert (0 <= date_of now + duration_days < DAYS_TO_MAX)%Z as Hday.
  { rewrite <- date_of_add_days. unfold date_of. split.
    - apply Z.div_pos; unfold MICROSECONDS_PER_DAY; lia.
    - apply Z.div_lt_upper_bound; [reflexivity|]. lia. }
  destruct (iso_reads_back _ Hday) as [Htext Hread].
  apply generate_then_validate; assumption.
Qed.

Lemma license_round_trip_witness :
  (exists key self',
      generate_key iso_strftime plain a_wednesday "00ff" 30 (__init__ None)
      = Ok (key, "2026-12-04", self') /\
      licenses self' !! key = Some "2026-12-04" /\
      license_file self' = Some (licenses self') /\
      validate_key iso_strptime (a_wednesday + 29 * MICROSECONDS_PER_DAY) key self'
      = Ok (true, Some "2026-12-04")) /\
  (forall t key0 self0,
      licenses self0 !! key0 = None ->
      validate_key iso_strptime t key0 self0 = Ok (false, None)).
Proof.
  apply (license_round_trip plain a_wednesday "00ff" 30 (__init__ None)
           (a_wednesday + 29 * MICROSECONDS_PER_DAY)%Z).
  - vm_compute. discriminate.
  - vm_compute. discriminate.
  - vm_compute. reflexivity.
  - vm_compute. reflexivity.
Defined.


(** * Further properties of the scraper *)

(** What a scrape that returns leaves in its locals. *)
Lemma scrape_final fx keyword location max_results headless fuel bs b' :
  scrape_google_maps fx keyword location max_results headless fuel no_browser
  = Some (Ok bs, b') ->
  exists h st,
    scrollHeight (pages fx 0) = Ok h /\
    bs = businesses st /\
    accumulated fx max_results st (scrolls b') /\
    loop_condition max_results st = false.
Proof.
  intros (h & st & b & _ & _ & Hh & Hw & -> & ->)%scrape_returns.
  exists h, st. split; [exact Hh|]. split; [reflexivity|].
  apply (while_loop_invariant (accumulated fx max_results)) in Hw; [exact Hw| |].
  - intros st0 n st1. apply accumulated_pass.
  - repeat split; simpl; try lia; intros; lia.
Qed.

(** ** The [for] loop in closed form *)

(** X1. Whatever the cap and the list it starts from, the [for] loop
    returns the list it was given followed by the records of the cards,
    in their order, as many as the cap still allows and at least one:
    the cap is tested after the append. It never raises and never
    removes or reorders a record. *)
Theorem for_cards_closed_form max_results cards bs :
  for_cards max_results cards bs
  = Ok (bs ++ take (Nat.max 1 (Z.to_nat max_results - length bs))
                   (omap unit_record cards)) /\
  (forall bs', for_cards max_results cards bs = Ok bs' -> bs `prefix_of` bs').
Proof.
  assert (for_cards max_results cards bs
          = Ok (bs ++ take (Nat.max 1 (Z.to_nat max_results - length bs))
                          (omap unit_record cards))) as Heq.
  { revert bs. induction cards as [|c rest IH]; intros bs; simpl.
    - rewrite take_nil, app_nil_r. reflexivity.
    - rewrite card_entry_unit_record. simpl.
      destruct (unit_record c) as [b|]; [|apply IH].
      rewrite length_app. simpl.
      destruct (Z.geb_spec (Z.of_nat (length bs + 1)) max_results) as [Hge|Hlt].
      + replace (Nat.max 1 (Z.to_nat max_results - length bs)) with 1 by lia.
        simpl. rewrite take_0. reflexivity.
      + rewrite IH, length_app. simpl.
        replace (Nat.max 1 (Z.to_nat max_results - length bs))
          with (S (Nat.max 1 (Z.to_nat max_results - (length bs + 1)))) by lia.
        rewrite firstn_cons, <- app_assoc. reflexivity. }
  split; [exact Heq|].
  intros bs' Hbs'. rewrite Heq in Hbs'. injection Hbs' as <-.
  apply prefix_app_r. reflexivity.
Qed.

(** ** The session, whatever the exit *)

(** X2. However a scrape ends, the browser is left in one of three
    states: never started when Chrome fails to start, closed when the
    scrape returns, and open when anything raises after Chrome started. *)
Theorem session_on_exit fx keyword location max_results headless fuel r b' :
  scrape_google_maps fx keyword location max_results headless fuel no_browser
  = Some (r, b') ->
  session b' = match launch fx headless, r with
               | Raise _, _ => NoSession
               | Ok _, Ok _ => SessionClosed
               | Ok _, Raise _ => SessionOpen
               end /\
  (forall e, launch fx headless = Raise e -> r = Raise e /\ b' = no_browser).
Proof.
  rewrite scrape_google_maps_unfold.
  destruct (launch fx headless) as [[]|e0].
  - intros H. split; [|discriminate].
    destruct (arrival (pages fx 0)) as [[]|e1]; [|injection H as <- <-; reflexivity].
    destruct (scrollHeight (pages fx 0)) as [h|e1]; [|injection H as <- <-; reflexivity].
    destruct (while_loop fuel fx max_results _ _) as [[[st|e1] b]|] eqn:Hw;
      try discriminate; injection H as <- <-; [reflexivity|].
    apply while_loop_frame in Hw as [Hs _]. exact Hs.
  - intros [= <- <-]. split; [reflexivity|]. intros e [= <-]. auto.
Qed.

Lemma session_on_exit_witness :
  session (opened "cafe" "Paris")
  = match launch Fixtures.unreachable true, @Raise (list business) WebDriverException with
    | Raise _, _ => NoSession
    | Ok _, Ok _ => SessionClosed
    | Ok _, Raise _ => SessionOpen
    end /\
  (forall e, launch Fixtures.unreachable true = Raise e ->
             @Raise (list business) WebDriverException = Raise e /\
             opened "cafe" "Paris" = no_browser).
Proof.
  exact (session_on_exit Fixtures.unreachable "cafe" "Paris" 10 true 5
           (Raise WebDriverException) (opened "cafe" "Paris") eq_refl).
Defined.

(** ** A cap that is not positive *)

(** X3. With [max_results <= 0] the loop is not entered: once Chrome has
    started, the page is loaded and its height read, the scrape returns
    the empty list without a scroll, whatever the fuel, and closes the
    session. *)
Theorem nonpositive_cap_returns_nothing fx keyword location max_results headless fuel h :
  (max_results <= 0)%Z ->
  launch fx headless = Ok tt ->
  arrival (pages fx 0) = Ok tt ->
  scrollHeight (pages fx 0) = Ok h ->
  scrape_google_maps fx keyword location max_results headless fuel no_browser
  = Some (Ok [], closed (opened keyword location)).
Proof.
  intros HK Hl Ha Hh. rewrite scrape_google_maps_unfold, Hl, Ha, Hh, while_loop_unfold.
  assert (loop_condition max_results (initial h) = false) as ->; [|reflexivity].
  apply loop_condition_false. left. simpl. lia.
Qed.

Lemma nonpositive_cap_returns_nothing_witness :
  scrape_google_maps Fixtures.twelve_units "Mechanic" "New York" 0 true 0 no_browser
  = Some (Ok [], closed (opened "Mechanic" "New York")).
Proof.
  apply (nonpositive_cap_returns_nothing Fixtures.twelve_units "Mechanic" "New York"
           0 true 0 800); [lia | reflexivity | reflexivity | reflexivity].
Defined.

(** ** Leaving by stagnation *)

Lemma flat_run_pass fx max_results st n st' :
  flat_run fx st n ->
  loop_condition max_results st = true ->
  pass fx max_results st (S n) = Ok st' ->
  flat_run fx st' (S n).
Proof.
  intros (Hlast & Hsa & Hflat) Hc Hp.
  destruct (pass_Ok _ _ _ _ _ Hc Hp) as (h & cards & _ & Hh & _ & _ & _ & Hl & Hs).
  unfold flat_run. rewrite Hl, Hs. split; [exact Hh|].
  destruct (Z.eqb_spec h (last_height st)) as [->|Hne].
  - split; [lia|]. intros i Hi. destruct (decide (i = S n)) as [->|Hne].
    + simpl. rewrite Nat.sub_0_r. congruence.
    + apply Hflat. lia.
  - split; [lia|]. intros i Hi. lia.
Qed.

(** X4. A scrape that returns with fewer than [max_results] records has
    scrolled at least five times, and each of its last five scrolls left
    the page height as it was: nothing but the cap or five flat scrolls
    in a row ends the loop. *)
Theorem stagnation_exit_needs_five_flat_scrolls fx keyword location max_results
    headless fuel bs b' :
  scrape_google_maps fx keyword location max_results headless fuel no_browser
  = Some (Ok bs, b') ->
  (Z.of_nat (length bs) < max_results)%Z ->
  5 <= scrolls b' /\
  (forall i, scrolls b' - 5 < i <= scrolls b' ->
             scrollHeight (pages fx i) = scrollHeight (pages fx (i - 1))).
Proof.
  intros (h & st & b & _ & _ & Hh & Hw & -> & ->)%scrape_returns Hlt.
  apply (while_loop_invariant (flat_run fx)) in Hw as [(_ & Hsa & Hflat) Hc].
  - apply loop_condition_false in Hc as [Hc|Hc]; [lia|]. simpl.
    split; [lia|]. intros i Hi. apply Hflat. lia.
  - intros st0 n st1. apply flat_run_pass.
  - split; [exact Hh|]. simpl. split; [lia|]. intros i Hi. lia.
Qed.

Lemma stagnation_exit_needs_five_flat_scrolls_witness :
  5 <= 8 /\
  (forall i, 8 - 5 < i <= 8 ->
             scrollHeight (pages Fixtures.twelve_units i)
             = scrollHeight (pages Fixtures.twelve_units (i - 1))).
Proof.
  exact (stagnation_exit_needs_five_flat_scrolls Fixtures.twelve_units
           "Mechanic" "New York" 100 true 8
           (map Fixtures.only Fixtures.twelve_names)
           (closed {| session := SessionOpen;
                      current_url := Some (search_url "Mechanic" "New York");
                      scrolls := 8 |})
           eq_refl ltac:(vm_compute; reflexivity)).
Defined.

(** ** A page that keeps growing *)

Lemma length_omap_le {A B} (f : A -> option B) (l : list A) :
  length (omap f l) <= length l.
Proof.
  induction l as [|a l IH]; simpl; [lia|].
  unfold omap in *. destruct (f a); simpl; lia.
Qed.

Lemma length_appended_max max_results bs cards :
  length (appended max_results bs cards) <= Nat.max (length bs) (length cards).
Proof.
  unfold appended. rewrite length_app, length_take.
  pose proof (length_omap_le unit_record (drop (length bs) cards)) as Hle.
  rewrite length_drop in Hle. lia.
Qed.

Section EverChanging.

Variables (fx : fixture) (max_results : Z).
Hypothesis all_return : healthy fx.
Hypothesis changes :
  forall n, scrollHeight (pages fx (S n)) <> scrollHeight (pages fx n).
Hypothesis few_cards : forall n, (Z.of_nat (length (cards_at fx n)) < max_results)%Z.

Lemma changing_loop_runs_on fuel st b :
  scrollHeight (pages fx (scrolls b)) = Ok (last_height st) ->
  (Z.of_nat (length (businesses st)) < max_results)%Z ->
  scroll_attempts st = 0%Z ->
  while_loop fuel fx max_results st b = None.
Proof.
  revert st b. induction fuel as [|fuel IH]; intros st b Hlast Hlen Hsa;
    rewrite while_loop_unfold;
    (assert (loop_condition max_results st = true) as Hc
        by (apply loop_condition_true; lia)); rewrite Hc; [reflexivity|].
  destruct (all_return (S (scrolls b))) as (Ha & [h Hh] & [cards Hl]).
  rewrite (pass_healthy _ _ _ _ _ _ Hc Ha Hh Hl).
  apply WebDriverWait_until_Ok in Hl as [Hl _].
  apply IH; simpl.
  - exact Hh.
  - pose proof (length_appended_max max_results (businesses st) cards) as Hmax.
    pose proof (few_cards (S (scrolls b))) as Hfew. unfold cards_at in Hfew.
    rewrite Hl in Hfew. lia.
  - destruct (Z.eqb_spec h (last_height st)) as [->|Hne]; [|reflexivity].
    exfalso. apply (changes (scrolls b)). congruence.
Qed.

End EverChanging.

(** X5. Nothing else bounds the loop: when no call raises, every scroll
    changes the page height and no page lists as many as [max_results]
    cards, the scrape has not returned after any number of passes. *)
Theorem changing_height_never_returns fx keyword location max_results headless fuel :
  launch fx headless = Ok tt ->
  healthy fx ->
  (forall n, scrollHeight (pages fx (S n)) <> scrollHeight (pages fx n)) ->
  (forall n, (Z.of_nat (length (cards_at fx n)) < max_results)%Z) ->
  scrape_google_maps fx keyword location max_results headless fuel no_browser = None.
Proof.
  intros Hl Hfx Hch Hfew. rewrite scrape_google_maps_unfold, Hl.
  destruct (Hfx 0) as (Ha & [h Hh] & _). rewrite Ha, Hh.
  rewrite (changing_loop_runs_on fx max_results Hfx Hch Hfew); [reflexivity| | |].
  - exact Hh.
  - simpl. specialize (Hfew 0). lia.
  - reflexivity.
Qed.

Lemma changing_height_never_returns_witness :
  scrape_google_maps (Scenarios.ever_taller [Fixtures.named "A"; Fixtures.named "B"])
    "cafe" "Paris" 10 true 1000 no_browser = None.
Proof.
  apply changing_height_never_returns.
  - reflexivity.
  - intros n. split; [reflexivity|]. split; eexists; reflexivity.
  - intros n. simpl. intros [= H]. lia.
  - intros n. simpl. lia.
Defined.

(** ** A list that only grows *)

Lemma omap_total_length {A B} (f : A -> option B) (l : list A) :
  (forall a, a ∈ l -> f a <> None) -> length (omap f l) = length l.
Proof.
  induction l as [|a l IH]; intros Hall; [reflexivity|].
  specialize (IH (fun x Hx => Hall x (list_elem_of_further _ _ _ Hx))).
  pose proof (Hall a (list_elem_of_here _ _)) as Ha.
  simpl. unfold omap in *. destruct (f a); [simpl; lia | contradiction].
Qed.

Lemma omap_total_drop {A B} (f : A -> option B) (k : nat) (l : list A) :
  (forall a, a ∈ l -> f a <> None) -> omap f (drop k l) = drop k (omap f l).
Proof.
  revert k. induction l as [|a l IH]; intros k Hall; [destruct k; reflexivity|].
  destruct k as [|k]; [reflexivity|].
  pose proof (Hall a (list_elem_of_here _ _)) as Ha.
  simpl. unfold omap in *. destruct (f a); [|contradiction]. simpl.
  apply IH. intros x Hx. apply Hall. apply list_elem_of_further. exact Hx.
Qed.

Lemma take_min_length {A} (n : nat) (l : list A) :
  take (Nat.min n (length l)) l = take n l.
Proof. rewrite <- take_take. f_equal. apply take_ge. reflexivity. Qed.

Section Growing.

Variables (fx : fixture) (max_results : Z).
Hypothesis all_named :
  forall i c, 1 <= i -> c ∈ cards_at fx i -> exists b, card_entry c = Ok (Some b).
Hypothesis grows : forall i, 1 <= i -> cards_at fx i `prefix_of` cards_at fx (S i).

Lemma all_named_record i c : 1 <= i -> c ∈ cards_at fx i -> unit_record c <> None.
Proof.
  intros Hi Hc. destruct (all_named i c Hi Hc) as [b Hb].
  rewrite card_entry_unit_record in Hb. congruence.
Qed.

Lemma emitted_growing n :
  1 <= n ->
  emitted fx max_results n
  = take (Z.to_nat max_results) (omap unit_record (cards_at fx n)).
Proof.
  induction n as [|n IH]; [lia|]. intros _. simpl.
  destruct n as [|n].
  - unfold appended. simpl. rewrite Nat.sub_0_r. reflexivity.
  - rewrite IH by lia. clear IH.
    destruct (grows (S n) ltac:(lia)) as [ext Hext].
    set (R := omap unit_record (cards_at fx (S n))).
    assert (omap unit_record (cards_at fx (S (S n))) = R ++ omap unit_record ext) as HR'.
    { rewrite Hext, omap_app. reflexivity. }
    unfold appended.
    rewrite omap_total_drop by (intros c; apply all_named_record; lia).
    rewrite HR'. set (k := Z.to_nat max_results).
    rewrite length_take.
    assert (take k R = take (Nat.min k (length R)) (R ++ omap unit_record ext)) as ->.
    { rewrite take_app_le by lia. symmetry. apply take_min_length. }
    rewrite take_take_drop. f_equal. lia.
Qed.

End Growing.

(** X6. When every card listed has a headline and each page's list
    begins with the list of the page before, a scrape that returns
    returns the records of the last list it read, in the list's order,
    cut at [max_results]: each card gives one record, once. *)
Theorem growing_named_list_is_extracted_once fx keyword location max_results headless
    fuel bs b' :
  (forall i c, 1 <= i -> c ∈ cards_at fx i -> exists b, card_entry c = Ok (Some b)) ->
  (forall i, 1 <= i -> cards_at fx i `prefix_of` cards_at fx (S i)) ->
  scrape_google_maps fx keyword location max_results headless fuel no_browser
  = Some (Ok bs, b') ->
  bs = take (Z.to_nat max_results) (omap unit_record (cards_at fx (scrolls b'))).
Proof.
  intros Hnamed Hgrows (h & st & b & _ & _ & Hh & Hw & -> & ->)%scrape_returns.
  apply (while_loop_invariant
           (fun st n => accumulated fx max_results st n /\ flat_run fx st n)) in Hw
    as [[(Hbs & _ & _) (_ & Hsa & _)] Hc]; simpl.
  - rewrite Hbs. destruct (scrolls b) as [|n] eqn:Hn.
    + apply loop_condition_false in Hc. rewrite Hbs in Hc. simpl in *.
      replace (Z.to_nat max_results) with 0 by lia. reflexivity.
    + apply emitted_growing; [assumption | assumption | lia].
  - intros st0 n st1 [Ha Hf] Hc0 Hp. split.
    + eapply accumulated_pass; eassumption.
    + eapply flat_run_pass; eassumption.
  - split.
    + repeat split; simpl; try lia; intros; lia.
    + split; [exact Hh|]. simpl. split; [lia|]. intros i Hi. lia.
Qed.

Lemma growing_named_list_is_extracted_once_witness :
  map Fixtures.only Fixtures.twelve_names
  = take (Z.to_nat 100) (omap unit_record (cards_at Fixtures.twelve_units 8)).
Proof.
  apply (growing_named_list_is_extracted_once Fixtures.twelve_units
           "Mechanic" "New York" 100 true 8 (map Fixtures.only Fixtures.twelve_names)
           (closed {| session := SessionOpen;
                      current_url := Some (search_url "Mechanic" "New York");
                      scrolls := 8 |})).
  - intros i c Hi Hc. destruct i as [|[|[|[|i]]]]; [lia | | | |]; cbn in Hc;
      repeat (apply elem_of_cons in Hc as [->|Hc]; [eexists; reflexivity|]);
      apply elem_of_nil in Hc; contradiction.
  - intros i Hi. destruct i as [|[|[|[|i]]]]; [lia | | | |]; cbn.
    + exists (Fixtures.units ["u06"; "u07"; "u08"; "u09"]). reflexivity.
    + exists (Fixtures.units ["u10"; "u11"; "u12"]). reflexivity.
    + exists []. reflexivity.
    + exists []. destruct i; reflexivity.
  - reflexivity.
Defined.

(** ** Where the loop ends *)

(** X17. On a driver none of whose calls raises, the scrape returns
    after exactly [n] scrolls, [n] being the first number of scrolls at
    which the stagnation counter has reached five or [max_results]
    records have accumulated: the counter is the one of [stagnation],
    one more after a scroll that left the height as it was and zero
    after one that changed it, so a change of height puts the exit five
    scrolls further. The scrape returns the records accumulated by
    then and closes the session. *)
Theorem loop_exits_where_the_counter_says fx keyword location max_results headless n fuel :
  fault_free fx headless n ->
  n <= fuel ->
  (forall m, m < n ->
             (stagnation fx m < 5)%Z /\
             (Z.of_nat (length (emitted fx max_results m)) < max_results)%Z) ->
  (5 <= stagnation fx n)%Z \/
  (max_results <= Z.of_nat (length (emitted fx max_results n)))%Z ->
  scrape_google_maps fx keyword location max_results headless fuel no_browser
  = Some (Ok (emitted fx max_results n),
          closed (after_scrolls n (opened keyword location))).
Proof.
  intros Hff Hfuel Hbefore Hat. apply scrape_exits_at; auto.
  - intros m Hm. apply loop_condition_true. simpl.
    destruct (Hbefore m Hm). split; assumption.
  - apply loop_condition_false. simpl. tauto.
Qed.

Lemma loop_exits_where_the_counter_says_witness :
  scrape_google_maps Scenarios.one_change "cafe" "Paris" 10 true 8 no_browser
  = Some (Ok (emitted Scenarios.one_change 10 8),
          closed (after_scrolls 8 (opened "cafe" "Paris"))) /\
  emitted Scenarios.one_change 10 8 = [Fixtures.only "A"; Fixtures.only "B"] /\
  map (stagnation Scenarios.one_change) [1; 2; 3; 4; 5; 6; 7; 8]
  = [1; 2; 0; 1; 2; 3; 4; 5]%Z.
Proof.
  split; [|split; vm_compute; reflexivity].
  apply (loop_exits_where_the_counter_says Scenarios.one_change "cafe" "Paris" 10 true
           8 8).
  - split; [reflexivity|]. intros n Hn.
    do 9 (destruct n as [|n]; [repeat split; eauto; intros; lia|]). lia.
  - lia.
  - intros m Hm.
    do 8 (destruct m as [|m]; [split; vm_compute; reflexivity|]). lia.
  - left. vm_compute. discriminate.
Defined.

(** X18. Against a driver whose page height is the same after every
    scroll, and none of whose calls raises, the scrape returns after at
    most five scrolls, and after exactly five when fewer than
    [max_results] records have accumulated. *)
Theorem stagnation_after_five_scrolls fx keyword location max_results headless h fuel :
  launch fx headless = Ok tt ->
  (forall n, arrival (pages fx n) = Ok tt) ->
  (forall n, scrollHeight (pages fx n) = Ok h) ->
  (forall n, exists cards, WebDriverWait_until (articles (pages fx n)) = Ok cards) ->
  5 <= fuel ->
  exists bs b',
    scrape_google_maps fx keyword location max_results headless fuel no_browser
    = Some (Ok bs, b') /\
    scrolls b' <= 5 /\
    ((Z.of_nat (length bs) < max_results)%Z -> scrolls b' = 5).
Proof.
  intros Hlaunch Harr Hflat Hlist Hfuel.
  destruct (stagnant_loop fx max_results h Harr Hflat Hlist 5 (initial h)
              (opened keyword location) eq_refl eq_refl)
    as (st' & b' & Hw & Hle & Hn).
  apply (while_loop_more_fuel _ _ _ fuel) in Hw; [|exact Hfuel].
  exists (businesses st'), (closed b').
  rewrite scrape_google_maps_unfold, Hlaunch, Harr, Hflat, Hw.
  split; [reflexivity|]. simpl in *. split; [lia|].
  intros Hlt. apply Hn in Hlt. lia.
Qed.

Lemma stagnation_after_five_scrolls_witness :
  exists bs b',
    scrape_google_maps Scenarios.two_cafes "cafe" "Paris" 10 true 5 no_browser
    = Some (Ok bs, b') /\
    scrolls b' <= 5 /\
    ((Z.of_nat (length bs) < 10)%Z -> scrolls b' = 5).
Proof.
  exact (stagnation_after_five_scrolls Scenarios.two_cafes "cafe" "Paris" 10 true 1000 5
           eq_refl (fun _ => eq_refl) (fun _ => eq_refl)
           (fun _ => ex_intro _ _ eq_refl) (le_n 5)).
Defined.

(** * Further properties of the licence store *)

(** What [generate_key] returns when the expiry is a [datetime]. *)
Lemma generate_key_returns strftime sha256_b64 now nonce duration_days self :
  is_datetime now ->
  is_datetime (now + duration_days * MICROSECONDS_PER_DAY) ->
  let expiry := strftime (date_of now + duration_days)%Z in
  let key := sha256_b64 (expiry +:+ "-" +:+ nonce) in
  generate_key strftime sha256_b64 now nonce duration_days self
  = Ok (key, expiry,
        {| licenses := <[key := expiry]> (licenses self);
           license_file := Some (<[key := expiry]> (licenses self)) |}).
Proof.
  unfold is_datetime. intros Hnow Hexp. simpl.
  unfold generate_key, timedelta, datetime_add.
  assert ((Z.abs duration_days <=? MAX_DELTA_DAYS)%Z = true) as ->.
  { apply Z.leb_le. unfold MAX_DELTA_DAYS, DAYS_TO_MAX, MICROSECONDS_PER_DAY in *. lia. }
  simpl.
  assert ((0 <=? now + duration_days * MICROSECONDS_PER_DAY)%Z
          && (now + duration_days * MICROSECONDS_PER_DAY
              <? DAYS_TO_MAX * MICROSECONDS_PER_DAY)%Z = true) as ->.
  { apply andb_true_iff. split; [apply Z.leb_le | apply Z.ltb_lt]; lia. }
  simpl. rewrite date_of_add_days. reflexivity.
Qed.

Lemma date_of_datetime t : is_datetime t -> (0 <= date_of t < DAYS_TO_MAX)%Z.
Proof.
  unfold is_datetime, date_of. intros Ht. split.
  - apply Z.div_pos; unfold MICROSECONDS_PER_DAY; lia.
  - apply Z.div_lt_upper_bound; [reflexivity|]. lia.
Qed.

Lemma midnight_date_of t : (midnight (date_of t) <= t)%Z.
Proof.
  unfold midnight, date_of, MICROSECONDS_PER_DAY.
  Z.to_euclidean_division_equations. lia.
Qed.

(** ** Out of the calendar *)



(** ** After the expiry date *)

(** The expiry of a key whose date is of years 1000 to 9999 is a
    [datetime]. *)
Lemma four_digit_year_datetime now duration_days :
  four_digit_year (date_of now + duration_days) ->
  is_datetime (now + duration_days * MICROSECONDS_PER_DAY).
Proof.
  unfold four_digit_year, is_datetime. rewrite <- date_of_add_days.
  unfold date_of, DAYS_TO_MAX, MICROSECONDS_PER_DAY.
  intros H. Z.to_euclidean_division_equations. lia.
Qed.

(** Day 364877 is the first whose year has four digits. *)
Lemma year_1000_begins :
  iso_strftime 364877 = "1000-01-01" /\ iso_strftime 364876 = "0999-12-31".
Proof. split; vm_compute; reflexivity. Qed.

(** X8. For a key whose expiry date is of year 1000 or later, where the
    text of the date has a year of four digits: from the first instant
    of the expiry date on, [validate_key] refuses the key and still
    returns its expiry, [(False, expiry)]; and such a key generated
    with a duration of zero days or less is refused at once. *)
Theorem expired_key_is_refused sha256_b64 now nonce duration_days self later :
  is_datetime now ->
  four_digit_year (date_of now + duration_days) ->
  (midnight (date_of now + duration_days) <= later)%Z ->
  exists key self',
    generate_key iso_strftime sha256_b64 now nonce duration_days self
    = Ok (key, iso_strftime (date_of now + duration_days)%Z, self') /\
    validate_key iso_strptime later key self'
    = Ok (false, Some (iso_strftime (date_of now + duration_days)%Z)) /\
    ((duration_days <= 0)%Z ->
     validate_key iso_strptime now key self'
     = Ok (false, Some (iso_strftime (date_of now + duration_days)%Z))).
Proof.
  intros Hnow Hyear Hlater.
  pose proof (four_digit_year_datetime _ _ Hyear) as Hexp.
  pose proof (date_of_datetime _ Hexp) as Hday. rewrite date_of_add_days in Hday.
  destruct (iso_reads_back _ Hday) as [Htext Hread].
  rewrite generate_key_returns by assumption.
  eexists. eexists. split; [reflexivity|].
  unfold validate_key. simpl. rewrite !lookup_insert_eq.
  rewrite (truthy_Some _ Htext), Hread. simpl. split.
  - rewrite (proj2 (Z.ltb_ge _ _)) by exact Hlater. reflexivity.
  - intros Hd. rewrite (proj2 (Z.ltb_ge _ _)); [reflexivity|].
    pose proof (midnight_date_of now). unfold midnight, MICROSECONDS_PER_DAY in *. lia.
Qed.

Lemma expired_key_is_refused_witness :
  exists key self',
    generate_key iso_strftime plain a_wednesday "00ff" (-3) (__init__ None)
    = Ok (key, "2026-11-01", self') /\
    validate_key iso_strptime (midnight 739920) key self'
    = Ok (false, Some "2026-11-01") /\
    validate_key iso_strptime a_wednesday key self'
    = Ok (false, Some "2026-11-01").
Proof.
  destruct (expired_key_is_refused plain a_wednesday "00ff" (-3) (__init__ None)
              (midnight 739920))
    as (key & self' & Hg & Hv & Hnow).
  - split; [vm_compute; discriminate | vm_compute; reflexivity].
  - split; [vm_compute; discriminate | vm_compute; reflexivity].
  - vm_compute. discriminate.
  - exists key, self'. split; [exact Hg|]. split; [exact Hv|].
    apply Hnow. lia.
Defined.

(** ** The other keys and the file *)

(** What a call of [generate_key] that returns has done to the store. *)
Lemma generate_key_Ok strftime sha256_b64 now nonce duration_days self key expiry self' :
  generate_key strftime sha256_b64 now nonce duration_days self
  = Ok (key, expiry, self') ->
  self' = {| licenses := <[key := expiry]> (licenses self);
             license_file := Some (<[key := expiry]> (licenses self)) |}.
Proof.
  unfold generate_key.
  destruct (timedelta duration_days) as [delta|e]; [|discriminate]. simpl.
  destruct (datetime_add now delta) as [expires|e]; [|discriminate]. simpl.
  intros [= <- <- <-]. reflexivity.
Qed.

(** X9. Generating a key leaves every other key as it was: its expiry in
    the store is unchanged and [validate_key] answers for it as before. *)
Theorem generate_key_keeps_other_keys strftime strptime sha256_b64 now nonce
    duration_days self key expiry self' key0 :
  generate_key strftime sha256_b64 now nonce duration_days self
  = Ok (key, expiry, self') ->
  key0 <> key ->
  licenses self' !! key0 = licenses self !! key0 /\
  (forall t, validate_key strptime t key0 self' = validate_key strptime t key0 self).
Proof.
  intros ->%generate_key_Ok Hne.
  assert (<[key := expiry]> (licenses self) !! key0 = licenses self !! key0) as Hl
    by (apply lookup_insert_ne; congruence).
  split; [exact Hl|]. intros t. unfold validate_key. simpl. rewrite Hl. reflexivity.
Qed.

Lemma generate_key_keeps_other_keys_witness :
  licenses Scenarios.two_keys !! "2026-12-04-00ff"
  = licenses Scenarios.one_key !! "2026-12-04-00ff" /\
  licenses Scenarios.one_key !! "2026-12-04-00ff" = Some "2026-12-04" /\
  (forall t, validate_key iso_strptime t "2026-12-04-00ff" Scenarios.two_keys
             = validate_key iso_strptime t "2026-12-04-00ff" Scenarios.one_key).
Proof.
  destruct (generate_key_keeps_other_keys iso_strftime iso_strptime plain a_wednesday
              "abcd" 26 Scenarios.one_key "2026-11-30-abcd" "2026-11-30"
              Scenarios.two_keys "2026-12-04-00ff") as [Hl Hv].
  - vm_compute. reflexivity.
  - discriminate.
  - split; [exact Hl|]. split; [reflexivity | exact Hv].
Defined.

(** X10. What [generate_key] has stored is in the licence file: a
    manager started again from the file is the manager [generate_key]
    left, so the new key and every older one are found as before. *)
Theorem licenses_survive_restart strftime strptime sha256_b64 now nonce duration_days
    self key expiry self' :
  generate_key strftime sha256_b64 now nonce duration_days self
  = Ok (key, expiry, self') ->
  __init__ (license_file self') = self' /\
  licenses (__init__ (license_file self')) !! key = Some expiry /\
  (forall t key0,
      validate_key strptime t key0 (__init__ (license_file self'))
      = validate_key strptime t key0 self').
Proof.
  intros ->%generate_key_Ok. unfold __init__. simpl.
  split; [reflexivity|]. split; [apply lookup_insert_eq | reflexivity].
Qed.

Lemma licenses_survive_restart_witness :
  __init__ (license_file Scenarios.one_key) = Scenarios.one_key /\
  licenses (__init__ (license_file Scenarios.one_key)) !! "2026-12-04-00ff" = Some "2026-12-04" /\
  (forall t key0,
      validate_key iso_strptime t key0 (__init__ (license_file Scenarios.one_key))
      = validate_key iso_strptime t key0 Scenarios.one_key).
Proof.
  apply (licenses_survive_restart iso_strftime iso_strptime plain a_wednesday
           "00ff" 30 (__init__ None) "2026-12-04-00ff" "2026-12-04" Scenarios.one_key).
  vm_compute. reflexivity.
Defined.

(** * Properties of the page *)

Import Page.

Lemma main_unfold strptime fx now license_manager f fuel :
  main strptime fx now license_manager f fuel no_browser
  = match validate_key strptime now (license_key f) license_manager with
    | Raise e => Some (Raise e, no_browser)
    | Ok (false, _) => Some (Ok [error_invalid_license], no_browser)
    | Ok (true, expiry_date) =>
        if negb (truthy (Some (keyword f))) || negb (truthy (Some (location f))) then
          Some (Ok [success_license_valid expiry_date; warning_fill_both_fields],
                no_browser)
        else if start_search f then
          match scrape_google_maps fx (keyword f) (location f) (max_results_slider f)
                  (headless_mode f) fuel no_browser with
          | Some (Ok [], b') =>
              Some (Ok [success_license_valid expiry_date; warning_no_results], b')
          | Some (Ok (b :: rest), b') =>
              Some (Ok [success_license_valid expiry_date;
                        success_found (length (b :: rest));
                        dataframe (take 5 (b :: rest));
                        download_button (file_name (keyword f) (location f)) (b :: rest)],
                    b')
          | Some (Raise e, b') =>
              Some (Ok [success_license_valid expiry_date; error_scraping_failed e], b')
          | None => None
          end
        else Some (Ok [success_license_valid expiry_date], no_browser)
    end.
Proof.
  unfold main, bind, lift, ret, try_except_Exception.
  destruct (validate_key strptime now (license_key f) license_manager)
    as [[[] expiry_date]|e]; try reflexivity.
  cbn -[truthy take length scrape_google_maps].
  destruct (negb (truthy (Some (keyword f))) || negb (truthy (Some (location f))));
    [reflexivity|].
  destruct (start_search f); [|reflexivity].
  destruct (scrape_google_maps fx (keyword f) (location f) (max_results_slider f)
              (headless_mode f) fuel no_browser) as [[[[|b rest]|e] b']|]; reflexivity.
Qed.

Lemma fields_filled f :
  negb (truthy (Some (keyword f))) || negb (truthy (Some (location f))) = false <->
  keyword f <> EmptyString /\ location f <> EmptyString.
Proof.
  destruct (keyword f), (location f); simpl; split; try discriminate;
    try (intros [H1 H2]; congruence); intros _; split; discriminate.
Qed.

(** ** The licence check comes first *)

(** X11. [main] reaches the driver only behind the licence check. A run
    that leaves a browser behind had a valid key, both search fields
    filled and the search button pressed. Without those three the run
    is the same against every driver and with any fuel, and leaves no
    browser: Chrome is not started, and not tried either, since a
    driver on which it cannot start gives the same run. With them
    Chrome is tried: where it cannot start, the run shows the failure
    with its exception and leaves no browser. *)
Theorem main_scrapes_only_behind_the_licence strptime fx now license_manager f fuel r b' :
  main strptime fx now license_manager f fuel no_browser = Some (r, b') ->
  (b' <> no_browser -> search_requested strptime now license_manager f) /\
  (~ search_requested strptime now license_manager f ->
   b' = no_browser /\
   forall fx' fuel',
     main strptime fx' now license_manager f fuel' no_browser = Some (r, b')) /\
  (search_requested strptime now license_manager f ->
   forall e, launch fx (headless_mode f) = Raise e ->
     b' = no_browser /\
     exists expiry_date,
       r = Ok [success_license_valid expiry_date; error_scraping_failed e]).
Proof.
  unfold search_requested. rewrite main_unfold.
  destruct (validate_key strptime now (license_key f) license_manager)
    as [[[] expiry_date]|e0] eqn:Hv.
  - destruct (negb (truthy (Some (keyword f))) || negb (truthy (Some (location f))))
      eqn:Hfields.
    + intros [= <- <-]. split; [contradiction|]. split.
      * intros _. split; [reflexivity|]. intros fx' fuel'.
        rewrite main_unfold, Hv, Hfields. reflexivity.
      * intros (_ & Hk & Hloc & _).
        assert (negb (truthy (Some (keyword f))) || negb (truthy (Some (location f)))
                = false) as Hf by (apply fields_filled; auto).
        congruence.
    + pose proof (proj1 (fields_filled f) Hfields) as [Hk Hloc].
      destruct (start_search f) eqn:Hstart.
      * intros Hrun.
        assert ((exists expiry_date0 : option string,
                    Ok (true, expiry_date) = Ok (true, expiry_date0)) /\
                keyword f <> EmptyString /\ location f <> EmptyString /\ true = true)
          as Hreq by eauto.
        split; [intros _; exact Hreq|]. split; [intros Hno; contradiction|].
        intros _ e He. rewrite scrape_google_maps_unfold, He in Hrun.
        injection Hrun as <- <-. eauto.
      * intros [= <- <-]. split; [contradiction|]. split.
        -- intros _. split; [reflexivity|]. intros fx' fuel'.
           rewrite main_unfold, Hv, Hfields, Hstart. reflexivity.
        -- intros (_ & _ & _ & Hs). discriminate.
  - intros [= <- <-]. split; [contradiction|]. split.
    + intros _. split; [reflexivity|]. intros fx' fuel'.
      rewrite main_unfold, Hv. reflexivity.
    + intros ([expiry Hx] & _). discriminate.
  - intros [= <- <-]. split; [contradiction|]. split.
    + intros _. split; [reflexivity|]. intros fx' fuel'.
      rewrite main_unfold, Hv. reflexivity.
    + intros ([expiry Hx] & _). discriminate.
Qed.

Lemma main_scrapes_only_behind_the_licence_witness :
  search_requested iso_strptime a_wednesday Scenarios.one_key Scenarios.a_search /\
  (forall r b',
      main iso_strptime Scenarios.no_chrome a_wednesday Scenarios.one_key
        Scenarios.a_search 5 no_browser = Some (r, b') ->
      b' = no_browser /\
      exists expiry_date,
        r = Ok [success_license_valid expiry_date;
                error_scraping_failed WebDriverException]) /\
  main iso_strptime Scenarios.no_chrome a_wednesday Scenarios.one_key Scenarios.a_search 5
    no_browser
  = Some (Ok [success_license_valid (Some "2026-12-04");
              error_scraping_failed WebDriverException], no_browser) /\
  ~ search_requested iso_strptime a_wednesday Scenarios.one_key Scenarios.a_stranger /\
  (forall fx' fuel',
      main iso_strptime fx' a_wednesday Scenarios.one_key Scenarios.a_stranger fuel'
        no_browser
      = Some (Ok [error_invalid_license], no_browser)).
Proof.
  assert (search_requested iso_strptime a_wednesday Scenarios.one_key Scenarios.a_search)
    as Hreq.
  { split; [exists (Some "2026-12-04"%string); vm_compute; reflexivity|].
    repeat split; discriminate. }
  assert (~ search_requested iso_strptime a_wednesday Scenarios.one_key
              Scenarios.a_stranger) as Hno.
  { intros ([expiry Hx] & _). vm_compute in Hx. discriminate. }
  split; [exact Hreq|]. split; [|split; [|split; [exact Hno|]]].
  - intros r b' Hrun.
    exact (proj2 (proj2 (main_scrapes_only_behind_the_licence iso_strptime
                           Scenarios.no_chrome a_wednesday Scenarios.one_key
                           Scenarios.a_search 5 r b' Hrun))
             Hreq WebDriverException eq_refl).
  - vm_compute. reflexivity.
  - apply (proj1 (proj2 (main_scrapes_only_behind_the_licence iso_strptime
                           Scenarios.two_cafes a_wednesday Scenarios.one_key
                           Scenarios.a_stranger 5 (Ok [error_invalid_license])
                           no_browser ltac:(vm_compute; reflexivity)))
             Hno).
Defined.

(** ** What leaves [main] *)

(** X12. The only exception that leaves [main] is the one
    [validate_key] raises, on a stored expiry that is not a date, with
    nothing shown and no browser started: whatever the scrape raises is
    caught. *)
Theorem main_raises_only_from_validate_key strptime fx now license_manager f fuel e b' :
  main strptime fx now license_manager f fuel no_browser = Some (Raise e, b') <->
  validate_key strptime now (license_key f) license_manager = Raise e /\
  b' = no_browser.
Proof.
  rewrite main_unfold.
  destruct (validate_key strptime now (license_key f) license_manager)
    as [[[] expiry_date]|e0].
  - split; [|intros [? _]; discriminate].
    destruct (negb (truthy (Some (keyword f))) || negb (truthy (Some (location f))));
      [discriminate|].
    destruct (start_search f); [|discriminate].
    destruct (scrape_google_maps fx (keyword f) (location f) (max_results_slider f)
                (headless_mode f) fuel no_browser) as [[[[|b rest]|e1] b1]|];
      discriminate.
  - split; [discriminate | intros [? _]; discriminate].
  - split; [intros [= -> <-]; auto | intros [[= ->] ->]; reflexivity].
Qed.

(** X13. When the scrape raises, [main] returns: it shows the licence
    line and the failure with the exception, and the browser stays as
    the scrape left it, open once Chrome had started. *)
Theorem main_shows_the_scrape_failure strptime fx now license_manager f fuel
    expiry_date e b' :
  validate_key strptime now (license_key f) license_manager = Ok (true, expiry_date) ->
  keyword f <> EmptyString ->
  location f <> EmptyString ->
  start_search f = true ->
  scrape_google_maps fx (keyword f) (location f) (max_results_slider f)
    (headless_mode f) fuel no_browser = Some (Raise e, b') ->
  main strptime fx now license_manager f fuel no_browser
  = Some (Ok [success_license_valid expiry_date; error_scraping_failed e], b') /\
  (launch fx (headless_mode f) = Ok tt -> session b' = SessionOpen).
Proof.
  intros Hv Hk Hloc Hstart Hs. rewrite main_unfold, Hv.
  rewrite (proj2 (fields_filled f)) by auto. rewrite Hstart, Hs.
  split; [reflexivity|]. intros Hl. eapply scrape_raises_open; eassumption.
Qed.

Lemma main_shows_the_scrape_failure_witness :
  main iso_strptime (Fixtures.still 1000 []) a_wednesday Scenarios.one_key Scenarios.a_search 5 no_browser
  = Some (Ok [success_license_valid (Some "2026-12-04");
              error_scraping_failed TimeoutException],
          scrolled (opened "cafe" "Paris")) /\
  (launch (Fixtures.still 1000 []) (headless_mode Scenarios.a_search) = Ok tt ->
   session (scrolled (opened "cafe" "Paris")) = SessionOpen).
Proof.
  apply (main_shows_the_scrape_failure iso_strptime (Fixtures.still 1000 [])
           a_wednesday Scenarios.one_key Scenarios.a_search 5 (Some "2026-12-04") TimeoutException
           (scrolled (opened "cafe" "Paris"))).
  - vm_compute. reflexivity.
  - discriminate.
  - discriminate.
  - reflexivity.
  - vm_compute. reflexivity.
Defined.

(** ** The results on the page *)

(** X14. When the scrape returns records, [main] announces their number,
    previews the first five and offers them all for download under
    [businesses_<keyword>_<location>.csv]; with the slider's values the
    number announced is between 1 and the slider's value, at most 500,
    and the session is closed. *)
Theorem main_announces_what_it_offers strptime fx now license_manager f fuel
    expiry_date results b' :
  Page.widget_ranges f ->
  validate_key strptime now (license_key f) license_manager = Ok (true, expiry_date) ->
  keyword f <> EmptyString ->
  location f <> EmptyString ->
  start_search f = true ->
  scrape_google_maps fx (keyword f) (location f) (max_results_slider f)
    (headless_mode f) fuel no_browser = Some (Ok results, b') ->
  results <> [] ->
  main strptime fx now license_manager f fuel no_browser
  = Some (Ok [success_license_valid expiry_date;
              success_found (length results);
              dataframe (take 5 results);
              download_button ("businesses_" +:+ keyword f +:+ "_" +:+ location f
                               +:+ ".csv") results],
          b') /\
  (1 <= Z.of_nat (length results) <= max_results_slider f)%Z /\
  (max_results_slider f <= 500)%Z /\
  length (take 5 results) = Nat.min 5 (length results) /\
  session b' = SessionClosed.
Proof.
  intros (_ & Hslider & _) Hv Hk Hloc Hstart Hs Hne. rewrite main_unfold, Hv.
  rewrite (proj2 (fields_filled f)) by auto. rewrite Hstart, Hs.
  destruct (scrape_accumulated _ _ _ _ _ _ _ _ Hs) as (Hbs & _ & Hclosed & _).
  pose proof (length_emitted_le fx (max_results_slider f) (scrolls b') ltac:(lia)) as Hle.
  rewrite <- Hbs in Hle.
  destruct results as [|b rest]; [contradiction|].
  split; [reflexivity|]. split; [simpl in *; lia|]. split; [lia|].
  split; [apply length_take | exact Hclosed].
Qed.

Lemma main_announces_what_it_offers_witness :
  let results := [Fixtures.only "A"; Fixtures.only "B"] in
  let b' := closed {| session := SessionOpen;
                      current_url := Some (search_url "cafe" "Paris");
                      scrolls := 5 |} in
  main iso_strptime Scenarios.two_cafes a_wednesday Scenarios.one_key
    Scenarios.a_search 5 no_browser
  = Some (Ok [success_license_valid (Some "2026-12-04");
              success_found (length results);
              dataframe (take 5 results);
              download_button ("businesses_" +:+ keyword Scenarios.a_search +:+ "_"
                               +:+ location Scenarios.a_search +:+ ".csv") results],
          b') /\
  (1 <= Z.of_nat (length results) <= max_results_slider Scenarios.a_search)%Z /\
  (max_results_slider Scenarios.a_search <= 500)%Z /\
  length (take 5 results) = Nat.min 5 (length results) /\
  session b' = SessionClosed.
Proof.
  apply (main_announces_what_it_offers iso_strptime Scenarios.two_cafes
           a_wednesday Scenarios.one_key Scenarios.a_search 5 (Some "2026-12-04")).
  - repeat split; vm_compute; congruence.
  - vm_compute. reflexivity.
  - discriminate.
  - discriminate.
  - reflexivity.
  - vm_compute. reflexivity.
  - discriminate.
Defined.

(** ** No results *)

Lemma omap_nil_None {A B} (f : A -> option B) (l : list A) :
  omap f l = [] -> forall a, a ∈ l -> f a = None.
Proof.
  induction l as [|x l IH]; intros Hnil a Ha; [inversion Ha|].
  simpl in Hnil. unfold omap in *. destruct (f x) eqn:Hx; [discriminate|].
  apply elem_of_cons in Ha as [->|Ha]; [exact Hx | exact (IH Hnil a Ha)].
Qed.

Lemma nothing_yet_pass fx max_results st n st' :
  (1 <= max_results)%Z ->
  nothing_yet fx st n ->
  loop_condition max_results st = true ->
  pass fx max_results st (S n) = Ok st' ->
  nothing_yet fx st' (S n).
Proof.
  intros HK Hyet Hc Hp Hnil i Hi.
  destruct (pass_Ok _ _ _ _ _ Hc Hp) as (h & cards & _ & _ & Ha & Hne & Hb & _).
  rewrite Hb in Hnil. unfold appended in Hnil.
  apply app_eq_nil in Hnil as [Hnil0 Hnil1].
  destruct (decide (i = S n)) as [->|Hneq]; [|apply Hyet; [exact Hnil0 | lia]].
  unfold cards_at. rewrite Ha. split; [exact Hne|].
  intros c Hc0. rewrite card_entry_unit_record. f_equal.
  rewrite Hnil0 in Hnil1. change (drop (length []) cards) with cards in Hnil1.
  change (length (@nil business)) with 0 in Hnil1. rewrite Nat.sub_0_r in Hnil1.
  apply (omap_nil_None unit_record cards); [|exact Hc0].
  destruct (omap unit_record cards) as [|b l]; [reflexivity|].
  destruct (Z.to_nat max_results) eqn:Hk; [lia | discriminate Hnil1].
Qed.

(** A message that is not among those listed. *)
Ltac not_shown H :=
  repeat (apply elem_of_cons in H as [H|H]; [discriminate H|]);
  apply elem_of_nil in H; contradiction.

(** X15. [main] shows "No results found" only after a scrape of at least
    five scrolls in which every page listed cards and no card had a
    name: a search that lists no card never shows it. *)
Theorem no_results_needs_nameless_cards strptime fx now license_manager f fuel page b' :
  Page.widget_ranges f ->
  main strptime fx now license_manager f fuel no_browser = Some (Ok page, b') ->
  warning_no_results ∈ page ->
  5 <= scrolls b' /\
  forall i, 1 <= i <= scrolls b' ->
    cards_at fx i <> [] /\ forall c, c ∈ cards_at fx i -> card_entry c = Ok None.
Proof.
  intros (_ & Hslider & _) Hmain Hin. rewrite main_unfold in Hmain.
  assert (scrape_google_maps fx (keyword f) (location f) (max_results_slider f)
            (headless_mode f) fuel no_browser = Some (Ok [], b')) as Hs.
  { destruct (validate_key strptime now (license_key f) license_manager)
      as [[[] expiry_date]|e]; try discriminate.
    - destruct (negb (truthy (Some (keyword f))) || negb (truthy (Some (location f))));
        [injection Hmain as <- <-; not_shown Hin|].
      destruct (start_search f); [|injection Hmain as <- <-; not_shown Hin].
      destruct (scrape_google_maps fx (keyword f) (location f) (max_results_slider f)
                  (headless_mode f) fuel no_browser) as [[[[|b rest]|e] b1]|];
        try discriminate; injection Hmain as <- <-;
        [reflexivity | not_shown Hin | not_shown Hin].
    - injection Hmain as <- <-. not_shown Hin. }
  apply scrape_returns in Hs as (h & st & b & _ & _ & Hh & Hw & Hbs & ->).
  apply (while_loop_invariant
           (fun st n => nothing_yet fx st n /\ flat_run fx st n)) in Hw
    as [[Hyet (_ & Hsa & _)] Hc]; simpl.
  - apply loop_condition_false in Hc. rewrite <- Hbs in Hc. simpl in Hc.
    split; [lia|]. apply Hyet. congruence.
  - intros st0 n st1 [Hy Hf] Hc0 Hp. split.
    + eapply nothing_yet_pass; try eassumption. lia.
    + eapply flat_run_pass; eassumption.
  - split.
    + intros _ i Hi. lia.
    + split; [exact Hh|]. simpl. split; [lia|]. intros i Hi. lia.
Qed.

Lemma no_results_needs_nameless_cards_witness :
  5 <= 5 /\
  forall i, 1 <= i <= 5 ->
    cards_at (Fixtures.still 1000 [Fixtures.placeholder]) i <> [] /\
    forall c, c ∈ cards_at (Fixtures.still 1000 [Fixtures.placeholder]) i ->
              card_entry c = Ok None.
Proof.
  apply (no_results_needs_nameless_cards iso_strptime
           (Fixtures.still 1000 [Fixtures.placeholder]) a_wednesday Scenarios.one_key Scenarios.a_search 5
           [success_license_valid (Some "2026-12-04"); warning_no_results]
           (closed {| session := SessionOpen;
                      current_url := Some (search_url "cafe" "Paris");
                      scrolls := 5 |})).
  - repeat split; vm_compute; congruence.
  - vm_compute. reflexivity.
  - apply list_elem_of_further, list_elem_of_here.
Defined.

(** ** From the admin portal to the search *)

(** X16. With the duration the admin portal offers, 1 to 365 days, and a
    clock more than a year before the end of the calendar,
    [generate_key] does not raise: the sidebar shows a key and its
    expiry, and a later run whose visitor enters that key before the
    expiry date passes the licence check, whatever else it does. *)
Theorem issued_license_is_accepted sha256_b64 now nonce f license_manager :
  Page.widget_ranges f ->
  admin_portal f = true ->
  generate_new_license f = true ->
  (0 <= now < midnight (DAYS_TO_MAX - 365))%Z ->
  exists key license_manager',
    admin_section iso_strftime sha256_b64 now nonce f license_manager
    = Ok ([sidebar_new_license key
             (iso_strftime (date_of now + license_duration f)%Z)],
          license_manager') /\
    forall fx f' later fuel r b',
      license_key f' = key ->
      (later < midnight (date_of now + license_duration f))%Z ->
      main iso_strptime fx later license_manager' f' fuel no_browser = Some (r, b') ->
      exists page,
        r = Ok (success_license_valid
                  (Some (iso_strftime (date_of now + license_duration f)%Z)) :: page).
Proof.
  intros (Hd & _ & _) Hadmin Hgen Hnow.
  assert (is_datetime now) as Hdt.
  { unfold is_datetime, midnight, DAYS_TO_MAX, MICROSECONDS_PER_DAY in *. lia. }
  assert (is_datetime (now + license_duration f * MICROSECONDS_PER_DAY)) as Hexp.
  { unfold is_datetime, midnight, DAYS_TO_MAX, MICROSECONDS_PER_DAY in *. lia. }
  pose proof (date_of_datetime _ Hexp) as Hday. rewrite date_of_add_days in Hday.
  destruct (iso_reads_back _ Hday) as [Htext Hread].
  unfold admin_section. rewrite Hadmin, Hgen.
  rewrite generate_key_returns by assumption. simpl.
  eexists. eexists. split; [reflexivity|].
  intros fx f' later fuel r b' Hkey Hlater. rewrite main_unfold, Hkey.
  match goal with
  | |- context [validate_key iso_strptime later ?k ?m] =>
      assert (validate_key iso_strptime later k m
              = Ok (true, Some (iso_strftime (date_of now + license_duration f)%Z)))
        as ->
  end.
  { unfold validate_key. simpl. rewrite lookup_insert_eq.
    rewrite (truthy_Some _ Htext), Hread. simpl.
    rewrite (proj2 (Z.ltb_lt _ _)) by exact Hlater. reflexivity. }
  destruct (negb (truthy (Some (keyword f'))) || negb (truthy (Some (location f'))));
    [intros Hm; inversion Hm; eauto|].
  destruct (start_search f'); [|intros Hm; inversion Hm; eauto].
  destruct (scrape_google_maps fx (keyword f') (location f') (max_results_slider f')
              (headless_mode f') fuel no_browser) as [[[[|b rest]|e] b1]|];
    try discriminate; intros Hm; inversion Hm; eauto.
Qed.

Lemma issued_license_is_accepted_witness :
  exists key license_manager',
    admin_section iso_strftime plain a_wednesday "00ff" Scenarios.an_admin (__init__ None)
    = Ok ([sidebar_new_license key
             (iso_strftime (date_of a_wednesday + license_duration Scenarios.an_admin)%Z)],
          license_manager') /\
    forall fx f' later fuel r b',
      license_key f' = key ->
      (later < midnight (date_of a_wednesday + license_duration Scenarios.an_admin))%Z ->
      main iso_strptime fx later license_manager' f' fuel no_browser = Some (r, b') ->
      exists page,
        r = Ok (success_license_valid
                  (Some (iso_strftime
                           (date_of a_wednesday + license_duration Scenarios.an_admin)%Z))
                :: page).
Proof.
  apply (issued_license_is_accepted plain a_wednesday "00ff" Scenarios.an_admin (__init__ None)).
  - repeat split; vm_compute; congruence.
  - reflexivity.
  - reflexivity.
  - split; [vm_compute; discriminate | vm_compute; reflexivity].
Defined.
